(** * astrbot_plugin_status: a shallow embedding and its verified properties

    The plugin has three Python modules:
    - [system_info.py]     the metrics collector,
    - [kawaii_renderer.py] the card compositor,
    - [main.py]            the command layer with its in-memory cache.

    Conventions of the embedding.
    - A Python [float] is modelled by an exact rational ([Q]): the
      arithmetic, the comparisons, [//], [%], [round] and the ["%.nf"]
      formatting are the exact operations, so binary64 rounding error is
      not part of the model.  Where the code only converts integers below
      2^53, divides by powers of two and compares (as [format_bytes] does)
      the exact model and binary64 agree.
    - A Python [int] is [Z], and an int converted to float is taken to be
      in the range of binary64; [str] is [string], one character per
      element; [bytes] is [list byte].
    - Code that can raise returns a [result]; [try/except] is a match on it.
    - [math.log10], [hashlib.md5] and the PNG encoder belong to the Python
      runtime and its libraries; the functions that call them take them as
      parameters.
    - The drawing surface is the list of draw calls issued on it, in order.
    - Calls to the logger are not modelled. *)

From Stdlib Require Import ZArith QArith Qround Qabs Qminmax Lqa Lia.
From Stdlib Require Import String Ascii DecimalString List.
From stdpp Require Import gmap strings.

Local Open Scope Z_scope.
Local Open Scope string_scope.

(** ** Python values, exceptions and results *)

Module Py.

(** The exception classes the three modules can meet (all are subclasses
    of [Exception]). *)
Inductive exn : Type :=
| ZeroDivisionError
| KeyError
| AttributeError
| ImportError
| ModuleNotFoundError
| OSError
| PermissionError
| FileNotFoundError
| UnicodeDecodeError
| RuntimeError (msg : string).

(** [isinstance(e, OSError)]; [IOError] is an alias of [OSError]. *)
Definition is_OSError (e : exn) : bool :=
  match e with
  | OSError | PermissionError | FileNotFoundError => true
  | _ => false
  end.

Definition is_AttributeError (e : exn) : bool :=
  match e with AttributeError => true | _ => false end.

Definition is_ImportError (e : exn) : bool :=
  match e with ImportError | ModuleNotFoundError => true | _ => false end.

Inductive result (A : Type) : Type :=
| Ok (a : A)
| Raise (e : exn).
Arguments Ok {A} a.
Arguments Raise {A} e.

Definition bind {A B : Type} (r : result A) (k : A -> result B) : result B :=
  match r with
  | Ok a => k a
  | Raise e => Raise e
  end.

Definition raises {A : Type} (r : result A) : bool :=
  match r with Ok _ => false | Raise _ => true end.

(** *** Numbers *)

Definition Qltb (x y : Q) : bool :=
  match Qcompare x y with Lt => true | _ => false end.
Definition Qgtb (x y : Q) : bool := Qltb y x.
Definition Qleb (x y : Q) : bool := negb (Qltb y x).

(** [x / y] on floats, and on ints (true division): raises on a zero
    divisor. *)
Definition truediv (x y : Q) : result Q :=
  if Qeq_bool y 0 then Raise ZeroDivisionError else Ok (x / y)%Q.

(** [x // y] and [x % y] for a positive constant divisor. *)
Definition floordiv (x y : Q) : Q := inject_Z (Qfloor (x / y)).
Definition pymod (x y : Q) : Q := (x - y * floordiv x y)%Q.

(** [int(x)]: truncation toward zero. *)
Definition int_of (x : Q) : Z :=
  if Qltb x 0 then Z.opp (Qfloor (Qopp x)) else Qfloor x.

(** [min(a, b)]: [b] when [b < a], else [a]. *)
Definition min (a b : Q) : Q := if Qltb b a then b else a.

(** Rounding to the nearest integer, ties to even. *)
Definition round_half_even (q : Q) : Z :=
  let f := Qfloor q in
  match Qcompare (q - inject_Z f) (1 # 2) with
  | Lt => f
  | Gt => f + 1
  | Eq => if Z.even f then f else f + 1
  end.

Definition pow10 (n : nat) : Z := 10 ^ Z.of_nat n.

(** [round(x, n)]. *)
Definition round (x : Q) (n : nat) : Q :=
  (inject_Z (round_half_even (x * inject_Z (pow10 n))) / inject_Z (pow10 n))%Q.

(** *** Strings *)

(** [str(n)] for an int. *)
Definition str_int (n : Z) : string := NilZero.string_of_int (Z.to_int n).

(** [str(b)] for a bool. *)
Definition str_bool (b : bool) : string := if b then "True" else "False".

Fixpoint zeros (n : nat) : string :=
  match n with O => "" | S n' => String "0" (zeros n') end.

(** The fractional digits, left-padded with zeros to [prec] places. *)
Definition frac_digits (prec : nat) (r : Z) : string :=
  let s := str_int r in
  zeros (prec - String.length s) ++ s.

(** [f"{x:.<prec>f}"]: fixed-point formatting, ties to even. *)
Definition format_f (prec : nat) (x : Q) : string :=
  let scaled := round_half_even (Qabs x * inject_Z (pow10 prec)) in
  let ip := scaled / pow10 prec in
  let fp := scaled mod pow10 prec in
  (if Qltb x 0 then "-" else "") ++ str_int ip ++
  match prec with
  | O => ""
  | _ => "." ++ frac_digits prec fp
  end.

Fixpoint least_decimals (fuel k : nat) (x : Q) : nat :=
  match fuel with
  | O => k
  | S fuel' =>
      if Qeq_bool (inject_Z (Qfloor (x * inject_Z (pow10 k)))) (x * inject_Z (pow10 k))
      then k else least_decimals fuel' (S k) x
  end.

(** [repr(x)] of a float, as in [f"{x}"]: the shortest decimal that reads
    back as [x], with at least one fractional digit.  Exact for every
    value with at most 16 decimals, which covers what the collector
    produces with [round(_, 2)]; longer expansions are cut at 16 places. *)
Definition repr_float (x : Q) : string :=
  format_f (Nat.max 1 (least_decimals 16 0 x)) x.

(** [needle in haystack]. *)
Fixpoint contains (needle haystack : string) : bool :=
  String.prefix needle haystack ||
  match haystack with
  | EmptyString => false
  | String _ rest => contains needle rest
  end.

Definition lower_ascii (c : ascii) : ascii :=
  let n := nat_of_ascii c in
  if (Nat.leb 65 n && Nat.leb n 90)%bool then ascii_of_nat (n + 32) else c.

(** [s.lower()] on ASCII letters. *)
Fixpoint lower (s : string) : string :=
  match s with
  | EmptyString => EmptyString
  | String c rest => String (lower_ascii c) (lower rest)
  end.

(** [s[:n]]. *)
Definition take (n : nat) (s : string) : string := String.substring 0 n s.

End Py.

#[global] Instance result_ret : MRet Py.result := @Py.Ok.
#[global] Instance result_bind : MBind Py.result :=
  fun A B k r => Py.bind r k.

(** ** system_info.py: the metrics collector *)

Module system_info.
Import Py.

Record CPUInfo := {
  cpu_usage : Q;
  cpu_freq : Q;
  cpu_cores : Z;
  cpu_brand : string;
  cpu_temperature : option Q }.

Record MemoryInfo := {
  mem_total : Q;
  mem_used : Q;
  mem_available : Q;
  mem_usage : Q }.

Record SwapInfo := {
  swap_total : Q;
  swap_used : Q;
  swap_usage : Q }.

Record DiskInfo := {
  disk_total : Q;
  disk_used : Q;
  disk_free : Q;
  disk_usage : Q }.

Record NetworkInfo := {
  bytes_sent : Z;
  bytes_recv : Z;
  packets_sent : Z;
  packets_recv : Z;
  upload_speed : Q;
  download_speed : Q }.

Record GPUInfo := {
  gpu_name : string;
  gpu_usage : Q;
  gpu_memory_used : Q;
  gpu_memory_total : Q;
  gpu_temperature : option Q }.

Record SystemInfo := {
  hostname : string;
  system : string;
  release : string;
  architecture : string;
  boot_time : Q;
  uptime : string;
  process_count : Z }.

(** The dict built by [get_all_status_info]: each of its seven keys is
    present or absent. *)
Record StatusInfo := {
  st_cpu : option CPUInfo;
  st_memory : option MemoryInfo;
  st_swap : option SwapInfo;
  st_disk : option DiskInfo;
  st_network : option NetworkInfo;
  st_gpu : option GPUInfo;
  st_system : option SystemInfo }.

(** *** What the host answers

    Every query of [psutil], [cpuinfo], [platform], [pynvml], [GPUtil]
    and the file system either returns or raises. *)

Record svmem := { vm_total : Z; vm_used : Z; vm_available : Z; vm_percent : Q }.
Record sswap := { sw_total : Z; sw_used : Z; sw_percent : Q }.
Record sdiskusage := { du_total : Z; du_used : Z; du_free : Z }.
Record snetio := {
  io_bytes_sent : Z; io_bytes_recv : Z; io_packets_sent : Z; io_packets_recv : Z }.
Record uname_result := {
  un_node : string; un_system : string; un_release : string; un_machine : string }.

(** [pynvml]: the import and the calls made on device 0, in call order. *)
Record pynvml_probe := {
  nvml_import : result unit;
  nvmlInit : result unit;
  nvmlDeviceGetHandleByIndex : result unit;
  nvmlDeviceGetName_decoded : result string;
  nvmlDeviceGetUtilizationRates_gpu : result Z;
  nvmlDeviceGetMemoryInfo : result (Z * Z);  (* (total, used) *)
  nvmlDeviceGetTemperature : result Q }.

Record GPUtil_gpu := {
  gu_name : string; gu_load : Q; gu_memoryUsed : Q; gu_memoryTotal : Q;
  gu_temperature : option Q }.

Record GPUtil_probe := {
  gputil_import : result unit;
  getGPUs : result (list GPUtil_gpu) }.

(** A file: [None] when [os.path.exists] is false, else what
    [open(...).read()] gives. *)
Definition file_probe : Type := option (result string).

Record host := {
  dockerenv_exists : bool;
  proc_1_cgroup : file_probe;
  proc_self_mountinfo : file_probe;
  psutil_cpu_percent : result Q;
  psutil_cpu_freq : result (option Q);       (* [.current], in MHz *)
  psutil_cpu_count : result Z;
  cpuinfo_brand_raw : result (option string); (* the "brand_raw" entry *)
  psutil_sensors_temperatures : result (list (string * list Q));
  psutil_virtual_memory : result svmem;
  psutil_swap_memory : result sswap;
  psutil_disk_usage : result sdiskusage;
  psutil_net_io_counters : result snetio;
  pynvml : pynvml_probe;
  GPUtil : GPUtil_probe;
  platform_uname : result uname_result;
  psutil_boot_time : result Q;
  time_time : Q;
  psutil_pids : result (list Z) }.

(** *** The functions of the module *)

Definition bytes_to_gb (bytes_value : Z) : Q :=
  round (inject_Z bytes_value / inject_Z (1024 ^ 3)) 2.

Definition is_docker_environment (h : host) : result bool :=
  let body : result bool :=
    if dockerenv_exists h then Ok true else
    hit1 ← match proc_1_cgroup h with
            | Some r => content ← r;
                        Ok (contains "docker" content || contains "containerd" content)
            | None => Ok false
            end;
    if hit1 : bool then Ok true else
    hit2 ← match proc_self_mountinfo h with
            | Some r => content ← r; Ok (contains "docker" content)
            | None => Ok false
            end;
    if hit2 : bool then Ok true else Ok false in
  match body with
  | Ok b => Ok b
  | Raise e => if is_OSError e then Ok false else Raise e
  end.

(** The loop over [temps.items()]: the first sensor whose name mentions
    "cpu" or "core" decides; an empty reading list moves on. *)
Fixpoint first_cpu_temperature (temps : list (string * list Q)) : option Q :=
  match temps with
  | [] => None
  | (name, entries) :: rest =>
      if contains "cpu" (lower name) || contains "core" (lower name) then
        match entries with
        | e :: _ => Some e
        | [] => first_cpu_temperature rest
        end
      else first_cpu_temperature rest
  end.

Definition get_cpu_info (h : host) : result CPUInfo :=
  cpu_percent ← psutil_cpu_percent h;
  cpu_freq ← psutil_cpu_freq h;
  let freq_ghz := match cpu_freq with
                  | Some current => round (current / 1000) 2
                  | None => 0%Q
                  end in
  cores ← psutil_cpu_count h;
  brand_raw ← cpuinfo_brand_raw h;
  let cpu_brand := default "Unknown CPU" brand_raw in
  let temperature :=
    match psutil_sensors_temperatures h with
    | Ok temps => Ok (first_cpu_temperature temps)
    | Raise e => if is_AttributeError e || is_OSError e then Ok None else Raise e
    end in
  temperature ← temperature;
  Ok {| cpu_usage := cpu_percent; cpu_freq := freq_ghz; cpu_cores := cores;
        cpu_brand := cpu_brand; cpu_temperature := temperature |}.

Definition get_memory_info (h : host) : result MemoryInfo :=
  memory ← psutil_virtual_memory h;
  Ok {| mem_total := bytes_to_gb (vm_total memory);
        mem_used := bytes_to_gb (vm_used memory);
        mem_available := bytes_to_gb (vm_available memory);
        mem_usage := vm_percent memory |}.

Definition zero_swap : SwapInfo :=
  {| swap_total := 0; swap_used := 0; swap_usage := 0 |}.

Definition get_swap_info (h : host) : result SwapInfo :=
  is_docker ← is_docker_environment h;
  match psutil_swap_memory h with
  | Ok swap =>
      if (sw_total swap =? 0)%Z then Ok zero_swap
      else Ok {| swap_total := bytes_to_gb (sw_total swap);
                 swap_used := bytes_to_gb (sw_used swap);
                 swap_usage := sw_percent swap |}
  | Raise e =>
      if is_OSError e || is_AttributeError e then Ok zero_swap else Raise e
  end.

Definition get_disk_info (h : host) : result DiskInfo :=
  disk ← psutil_disk_usage h;
  ratio ← truediv (inject_Z (du_used disk)) (inject_Z (du_total disk));
  Ok {| disk_total := bytes_to_gb (du_total disk);
        disk_used := bytes_to_gb (du_used disk);
        disk_free := bytes_to_gb (du_free disk);
        disk_usage := round (ratio * 100) 1 |}.

Definition get_network_info (h : host) : result NetworkInfo :=
  net_io ← psutil_net_io_counters h;
  Ok {| bytes_sent := io_bytes_sent net_io;
        bytes_recv := io_bytes_recv net_io;
        packets_sent := io_packets_sent net_io;
        packets_recv := io_packets_recv net_io;
        upload_speed := 0; download_speed := 0 |}.

Definition unknown_gpu : GPUInfo :=
  {| gpu_name := "Unknown GPU"; gpu_usage := 0; gpu_memory_used := 0;
     gpu_memory_total := 0; gpu_temperature := None |}.

Definition no_gpu : GPUInfo :=
  {| gpu_name := "No GPU"; gpu_usage := 0; gpu_memory_used := 0;
     gpu_memory_total := 0; gpu_temperature := None |}.

(** The body of the first inner [try]: the NVIDIA backend. *)
Definition pynvml_gpu (p : pynvml_probe) : result GPUInfo :=
  _ ← nvml_import p;
  _ ← nvmlInit p;
  _ ← nvmlDeviceGetHandleByIndex p;
  name ← nvmlDeviceGetName_decoded p;
  usage ← nvmlDeviceGetUtilizationRates_gpu p;
  memory_info ← nvmlDeviceGetMemoryInfo p;
  let memory_total := bytes_to_gb (fst memory_info) in
  let memory_used := bytes_to_gb (snd memory_info) in
  let temperature := match nvmlDeviceGetTemperature p with
                     | Ok t => Some t
                     | Raise _ => None
                     end in
  Ok {| gpu_name := name; gpu_usage := inject_Z usage;
        gpu_memory_used := memory_used; gpu_memory_total := memory_total;
        gpu_temperature := temperature |}.

(** The body of the second inner [try]: the first device of [GPUtil],
    or nothing when the list is empty. *)
Definition GPUtil_gpu_info (g : GPUtil_probe) : result (option GPUInfo) :=
  _ ← gputil_import g;
  gpus ← getGPUs g;
  match gpus with
  | gpu :: _ =>
      Ok (Some {| gpu_name := gu_name gpu;
                  gpu_usage := (gu_load gpu * 100)%Q;
                  gpu_memory_used := (gu_memoryUsed gpu / 1024)%Q;
                  gpu_memory_total := (gu_memoryTotal gpu / 1024)%Q;
                  gpu_temperature := gu_temperature gpu |})
  | [] => Ok None
  end.

Definition get_gpu_info (h : host) : result GPUInfo :=
  let body : result GPUInfo :=
    match pynvml_gpu (pynvml h) with
    | Ok info => Ok info
    | Raise e =>
        if is_ImportError e then
          match GPUtil_gpu_info (GPUtil h) with
          | Ok (Some info) => Ok info
          | Ok None => Ok unknown_gpu
          | Raise e' => if is_ImportError e' then Ok unknown_gpu else Raise e'
          end
        else Raise e
    end in
  match body with
  | Ok info => Ok info
  | Raise _ => Ok no_gpu
  end.

Definition uptime_days (uptime_seconds : Q) : Z :=
  int_of (floordiv uptime_seconds 86400).
Definition uptime_hours (uptime_seconds : Q) : Z :=
  int_of (floordiv (pymod uptime_seconds 86400) 3600).
Definition uptime_minutes (uptime_seconds : Q) : Z :=
  int_of (floordiv (pymod uptime_seconds 3600) 60).

Definition format_uptime (uptime_seconds : Q) : string :=
  let days := uptime_days uptime_seconds in
  let hours := uptime_hours uptime_seconds in
  let minutes := uptime_minutes uptime_seconds in
  if (days >? 0)%Z then
    str_int days ++ "天 " ++ str_int hours ++ "小时 " ++ str_int minutes ++ "分钟"
  else if (hours >? 0)%Z then
    str_int hours ++ "小时 " ++ str_int minutes ++ "分钟"
  else
    str_int minutes ++ "分钟".

Definition get_system_info (h : host) : result SystemInfo :=
  sys ← platform_uname h;
  boot ← psutil_boot_time h;
  let uptime_seconds := (time_time h - boot)%Q in
  pids ← psutil_pids h;
  Ok {| hostname := un_node sys; system := un_system sys;
        release := un_release sys; architecture := un_machine sys;
        boot_time := boot; uptime := format_uptime uptime_seconds;
        process_count := Z.of_nat (length pids) |}.

Definition get_all_status_info (h : host) : result StatusInfo :=
  cpu ← get_cpu_info h;
  memory ← get_memory_info h;
  swap ← get_swap_info h;
  disk ← get_disk_info h;
  network ← get_network_info h;
  gpu ← get_gpu_info h;
  sys ← get_system_info h;
  Ok {| st_cpu := Some cpu; st_memory := Some memory; st_swap := Some swap;
        st_disk := Some disk; st_network := Some network; st_gpu := Some gpu;
        st_system := Some sys |}.

End system_info.

(** ** kawaii_renderer.py: the card compositor *)

Module kawaii_renderer.
Import Py system_info.

Definition color : Type := Z * Z * Z * Z.
Definition box : Type := Z * Z * Z * Z.
Definition point : Type := Z * Z.

Definition cpu_color : color := (84, 173, 255, 255).
Definition ram_color : color := (255, 179, 204, 255).
Definition swap_color : color := (251, 170, 147, 255).
Definition disk_color : color := (184, 170, 159, 255).
Definition gpu_color : color := (144, 238, 144, 255).
Definition network_upload_color : color := (255, 165, 0, 255).
Definition network_download_color : color := (135, 206, 235, 255).
Definition transparent_color : color := (0, 0, 0, 0).
Definition details_color : color := (184, 170, 159, 255).
Definition nickname_color : color := (84, 173, 255, 255).

Inductive font : Type :=
| adlam_fnt | spicy_fnt | baotu_fnt | dingtalk_fnt | baotu_small_fnt.

(** The calls made on the [ImageDraw] surface. *)
Inductive draw_call : Type :=
| draw_text (xy : point) (text : string) (fnt : font) (fill : color)
            (anchor : option string)
| draw_arc (xy : box) (start : Q) (end_ : Q) (width : Z) (fill : color)
| draw_ellipse (xy : box) (fill : color).

Inductive base_image : Type :=
| Background                     (* resources/images/background.png *)
| Blank (size : Z * Z) (fill : color).

Record canvas := { base : base_image; calls : list draw_call }.

Record plugin_entry := {
  entry_name : string;
  entry_is_dir : bool;
  entry_has_main : bool;
  entry_has_init : bool }.

(** What the renderer reads besides the snapshot. *)
Record resources := {
  background_loads : bool;
  brand_raw : result (option string);     (* cpuinfo, the "brand_raw" entry *)
  plugins_dir : result (option (list plugin_entry)) }.

(** [text[:n]] with Python's reading of a negative bound. *)
Definition slice_to (n : Z) (text : string) : string :=
  if (n <? 0)%Z
  then take (String.length text - Z.to_nat (- n)) text
  else take (Z.to_nat n) text.

Definition truncate_string (text : string) (max_length : Z) : string :=
  if (Z.of_nat (String.length text) <=? max_length)%Z then text
  else slice_to (max_length - 3) text ++ "...".

Definition units : list string := ["B"; "KB"; "MB"; "GB"; "TB"].

(** The [for unit in ...] loop of [format_bytes]. *)
Fixpoint format_bytes_loop (us : list string) (value : Q) : string :=
  match us with
  | unit :: rest =>
      if Qltb value 1024 then format_f 1 value ++ unit
      else format_bytes_loop rest (value / 1024)%Q
  | [] => format_f 1 value ++ "PB"
  end.

Definition format_bytes (bytes_value : Z) : string :=
  format_bytes_loop units (inject_Z bytes_value).

Definition counts_as_plugin (item : plugin_entry) : bool :=
  entry_is_dir item
  && negb (String.prefix "." (entry_name item))
  && negb (String.prefix "__" (entry_name item))
  && (entry_has_main item || entry_has_init item).

Definition _get_plugin_count (res : resources) : Z :=
  match plugins_dir res with
  | Ok None => 0
  | Ok (Some items) => Z.of_nat (length (filter (fun i => counts_as_plugin i = true) items))
  | Raise _ => 0
  end.

Section Rings.

(** [math.log10]. *)
Variable log10 : Q -> Q.

(** The sweep of a ring for a percent value: [percent * 3.6 - 90]. *)
Definition cpu_usage_angle (cpu_info : CPUInfo) : Q :=
  (cpu_usage cpu_info * 3.6 - 90)%Q.

Definition ram_usage_angle (memory_info : MemoryInfo) : result Q :=
  ratio ← truediv (mem_used memory_info) (mem_total memory_info);
  Ok (ratio * 360 - 90)%Q.

Definition ram_percent (memory_info : MemoryInfo) : result Q :=
  ratio ← truediv (mem_used memory_info) (mem_total memory_info);
  Ok (ratio * 100)%Q.

(** The guard [swap_info and swap_info.total > 0]. *)
Definition swap_shown (swap_info : option SwapInfo) : option SwapInfo :=
  match swap_info with
  | Some s => if Qgtb (swap_total s) 0 then Some s else None
  | None => None
  end.

Definition swap_usage_angle (s : SwapInfo) : result Q :=
  ratio ← truediv (swap_used s) (swap_total s);
  Ok (ratio * 360 - 90)%Q.

Definition swap_percent (s : SwapInfo) : result Q :=
  ratio ← truediv (swap_used s) (swap_total s);
  Ok (ratio * 100)%Q.

Definition disk_usage_angle (disk_info : DiskInfo) : result Q :=
  ratio ← truediv (disk_used disk_info) (disk_total disk_info);
  Ok (ratio * 360 - 90)%Q.

Definition disk_percent (disk_info : DiskInfo) : result Q :=
  ratio ← truediv (disk_used disk_info) (disk_total disk_info);
  Ok (ratio * 100)%Q.

Definition gpu_usage_angle (g : GPUInfo) : result Q :=
  if Qgtb (gpu_memory_total g) 0 then
    ratio ← truediv (gpu_memory_used g) (gpu_memory_total g);
    Ok (ratio * 360 - 90)%Q
  else Ok (gpu_usage g * 3.6 - 90)%Q.

Definition gpu_percent (g : GPUInfo) : result Q :=
  if Qgtb (gpu_memory_total g) 0 then
    ratio ← truediv (gpu_memory_used g) (gpu_memory_total g);
    Ok (ratio * 100)%Q
  else Ok (gpu_usage g).

(** The log-scale percent of a ring for a cumulative byte counter
    ([download_percentage] and [upload_percentage] of the arc blocks). *)
Definition max_bytes : Z := 1024 ^ 4.

Definition ring_percentage (bytes : Z) : result Q :=
  if (bytes >? 0)%Z then
    ratio ← truediv (log10 (inject_Z (bytes + 1))) (log10 (inject_Z max_bytes));
    Ok (min 100 (ratio * 100))
  else Ok 0%Q.

Definition ring_angle (bytes : Z) : result Q :=
  percentage ← ring_percentage bytes;
  Ok (percentage * 3.6 - 90)%Q.

(** The share of one direction in the total traffic
    ([download_percentage] and [upload_percentage] of the label blocks). *)
Definition share_percentage (this_direction : Z) (n : NetworkInfo) : result Q :=
  let total_network := (bytes_sent n + bytes_recv n)%Z in
  if (total_network >? 0)%Z then
    ratio ← truediv (inject_Z this_direction) (inject_Z total_network);
    Ok (ratio * 100)%Q
  else Ok 0%Q.

Definition download_share (n : NetworkInfo) : result Q :=
  share_percentage (bytes_recv n) n.
Definition upload_share (n : NetworkInfo) : result Q :=
  share_percentage (bytes_sent n) n.

Definition percent_text (percent : Q) : string := format_f 0 percent ++ "%".

(** A block that is drawn only when its snapshot is there. *)
Definition when_some {A : Type} (o : option A)
    (block : A -> result (list draw_call)) : result (list draw_call) :=
  match o with
  | Some a => block a
  | None => Ok []
  end.

Definition _draw_progress_arcs
    (cpu_info : CPUInfo) (memory_info : MemoryInfo)
    (swap_info : option SwapInfo) (disk_info : DiskInfo)
    (gpu_info : option GPUInfo) (network_info : option NetworkInfo)
    : result (list draw_call) :=
  let cpu_arc :=
    [draw_arc (103, 724, 217, 838) (-90) (cpu_usage_angle cpu_info) 15 cpu_color] in
  ram_angle ← ram_usage_angle memory_info;
  let ram_arc := [draw_arc (103, 878, 217, 992) (-90) ram_angle 15 ram_color] in
  swap_arc ← when_some (swap_shown swap_info) (fun s =>
    angle ← swap_usage_angle s;
    Ok [draw_arc (103, 1032, 217, 1146) (-90) angle 15 swap_color]);
  download_arc ← when_some network_info (fun n =>
    download_angle ← ring_angle (bytes_recv n);
    Ok [draw_arc (103, 1186, 217, 1300) (-90) download_angle 15
          network_download_color]);
  gpu_arc ← when_some gpu_info (fun g =>
    angle ← gpu_usage_angle g;
    Ok [draw_arc (560, 878, 674, 992) (-90) angle 15 gpu_color]);
  disk_angle ← disk_usage_angle disk_info;
  let disk_arc := [draw_arc (560, 1032, 674, 1146) (-90) disk_angle 15 disk_color] in
  upload_arc ← when_some network_info (fun n =>
    upload_angle ← ring_angle (bytes_sent n);
    Ok [draw_arc (560, 1186, 674, 1300) (-90) upload_angle 15
          network_upload_color]);
  let hollows :=
    [draw_ellipse (108, 729, 212, 833) transparent_color;
     draw_ellipse (108, 883, 212, 987) transparent_color;
     draw_ellipse (108, 1037, 212, 1141) transparent_color;
     draw_ellipse (108, 1192, 212, 1295) transparent_color;
     draw_ellipse (565, 883, 669, 987) transparent_color;
     draw_ellipse (565, 1037, 669, 1141) transparent_color;
     draw_ellipse (565, 1192, 669, 1295) transparent_color] in
  let cpu_label :=
    [draw_text (135, 760) (percent_text (cpu_usage cpu_info)) spicy_fnt cpu_color None] in
  ram_pct ← ram_percent memory_info;
  let ram_label :=
    [draw_text (135, 915) (percent_text ram_pct) spicy_fnt ram_color None] in
  swap_label ← when_some (swap_shown swap_info) (fun s =>
    pct ← swap_percent s;
    Ok [draw_text (135, 1069) (percent_text pct) spicy_fnt swap_color None]);
  download_label ← when_some network_info (fun n =>
    pct ← download_share n;
    Ok [draw_text (135, 1223) (percent_text pct) spicy_fnt
          network_download_color None]);
  gpu_label ← when_some gpu_info (fun g =>
    pct ← gpu_percent g;
    Ok [draw_text (592, 915) (percent_text pct) spicy_fnt gpu_color None]);
  disk_pct ← disk_percent disk_info;
  let disk_label :=
    [draw_text (592, 1069) (percent_text disk_pct) spicy_fnt disk_color None] in
  upload_label ← when_some network_info (fun n =>
    pct ← upload_share n;
    Ok [draw_text (592, 1223) (percent_text pct) spicy_fnt
          network_upload_color None]);
  Ok (cpu_arc ++ ram_arc ++ swap_arc ++ download_arc ++ gpu_arc ++ disk_arc
      ++ upload_arc ++ hollows ++ cpu_label ++ ram_label ++ swap_label
      ++ download_label ++ gpu_label ++ disk_label ++ upload_label)%list.

Definition _draw_system_details (res : resources)
    (system_info : SystemInfo) (cpu_info : CPUInfo) : list draw_call :=
  let cpu_brand :=
    match brand_raw res with
    | Ok found => truncate_string (default "Unknown CPU" found) 30
    | Raise _ => "Unknown CPU"
    end in
  let system_text :=
    truncate_string (system system_info ++ " " ++ release system_info) 30 in
  let version_text := "AstrBot v3.5.22" in
  let plugin_text := str_int (_get_plugin_count res) ++ " plugins" in
  [draw_text (352, 1378) cpu_brand adlam_fnt details_color None;
   draw_text (352, 1431) system_text adlam_fnt details_color None;
   draw_text (352, 1484) version_text adlam_fnt details_color None;
   draw_text (352, 1537) plugin_text adlam_fnt details_color None;
   draw_text (400, 1680) "运行时间" baotu_small_fnt details_color None;
   draw_text (957, 1703) (uptime system_info) dingtalk_fnt details_color (Some "ra")].

(** [status_info[key]]. *)
Definition getitem {A : Type} (o : option A) : result A :=
  match o with
  | Some a => Ok a
  | None => Raise KeyError
  end.

(** The nickname and the caption and text row of each metric: the draw
    calls of [render] that come before the rings. *)
Definition render_rows
    (cpu_info : CPUInfo) (memory_info : MemoryInfo)
    (swap_info : option SwapInfo) (disk_info : DiskInfo)
    (gpu_info : option GPUInfo) (network_info : option NetworkInfo)
    : list draw_call :=
  let nickname := [draw_text (103, 581) "AstrBot" baotu_fnt nickname_color None] in
  let cpu_text :=
    format_f 1 (cpu_usage cpu_info) ++ "% - " ++ repr_float (cpu_freq cpu_info)
    ++ "GHz [" ++ str_int (cpu_cores cpu_info) ++ " core]" in
  let cpu_rows :=
    [draw_text (251, 737) "CPU" adlam_fnt cpu_color None;
     draw_text (251, 772) cpu_text spicy_fnt cpu_color None] in
  let ram_text :=
    format_f 1 (mem_used memory_info) ++ " / "
    ++ format_f 1 (mem_total memory_info) ++ " GB" in
  let ram_rows :=
    [draw_text (251, 892) "RAM" adlam_fnt ram_color None;
     draw_text (251, 927) ram_text spicy_fnt ram_color None] in
  let swap_rows :=
    draw_text (251, 1046) "SWAP" adlam_fnt swap_color None ::
    match swap_shown swap_info with
    | Some s =>
        [draw_text (251, 1081)
           (format_f 1 (swap_used s) ++ " / " ++ format_f 1 (swap_total s) ++ " GB")
           spicy_fnt swap_color None]
    | None => []
    end in
  let download_rows :=
    draw_text (251, 1200) "download" adlam_fnt network_download_color None ::
    match network_info with
    | Some n =>
        [draw_text (251, 1235) (format_bytes (bytes_recv n)) spicy_fnt
           network_download_color None]
    | None => []
    end in
  let gpu_rows :=
    draw_text (720, 892) "GPU" adlam_fnt gpu_color None ::
    match gpu_info with
    | Some g =>
        let gpu_text :=
          if Qgtb (gpu_memory_total g) 0 then
            format_f 1 (gpu_memory_used g) ++ " / "
            ++ format_f 1 (gpu_memory_total g) ++ " GB"
          else format_f 1 (gpu_usage g) ++ "%" in
        [draw_text (720, 927) gpu_text spicy_fnt gpu_color None]
    | None => []
    end in
  let disk_text :=
    format_f 1 (disk_used disk_info) ++ " / "
    ++ format_f 1 (disk_total disk_info) ++ " GB" in
  let disk_rows :=
    [draw_text (720, 1046) "DISK" adlam_fnt disk_color None;
     draw_text (720, 1081) disk_text spicy_fnt disk_color None] in
  let upload_rows :=
    draw_text (720, 1195) "upload" adlam_fnt network_upload_color None ::
    match network_info with
    | Some n =>
        [draw_text (720, 1235) (format_bytes (bytes_sent n)) spicy_fnt
           network_upload_color None]
    | None => []
    end in
  (nickname ++ cpu_rows ++ ram_rows ++ swap_rows ++ download_rows
   ++ gpu_rows ++ disk_rows ++ upload_rows)%list.

Definition render (res : resources) (status_info : StatusInfo) : result canvas :=
  let base_img :=
    if background_loads res then Background
    else Blank (1080, 1920) (255, 255, 255, 255) in
  cpu_info ← getitem (st_cpu status_info);
  memory_info ← getitem (st_memory status_info);
  disk_info ← getitem (st_disk status_info);
  system_info ← getitem (st_system status_info);
  let network_info := st_network status_info in
  let swap_info := st_swap status_info in
  let gpu_info := st_gpu status_info in
  let rows := render_rows cpu_info memory_info swap_info disk_info
                gpu_info network_info in
  arcs ← _draw_progress_arcs cpu_info memory_info swap_info disk_info
            gpu_info network_info;
  let details := _draw_system_details res system_info cpu_info in
  Ok {| base := base_img; calls := (rows ++ arcs ++ details)%list |}.

End Rings.

(** *** Fonts

    [setup_fonts] loads five fonts inside one [try]; an [OSError] of any
    load replaces all five by the default font. *)

Inductive loaded_font : Type :=
| truetype (file : string) (size : Z)
| load_default.

Record font_set := {
  loaded_adlam : loaded_font;
  loaded_spicy : loaded_font;
  loaded_baotu : loaded_font;
  loaded_dingtalk : loaded_font;
  loaded_baotu_small : loaded_font }.

(** What [ImageFont.truetype] does on each of the five calls, in order. *)
Record font_loads := {
  load_adlam_36 : result unit;
  load_spicy_38 : result unit;
  load_baotu_64 : result unit;
  load_dingtalk_38 : result unit;
  load_baotu_28 : result unit }.

Definition default_fonts : font_set :=
  {| loaded_adlam := load_default; loaded_spicy := load_default;
     loaded_baotu := load_default; loaded_dingtalk := load_default;
     loaded_baotu_small := load_default |}.

Definition setup_fonts (l : font_loads) : result font_set :=
  let body : result font_set :=
    _ ← load_adlam_36 l;
    _ ← load_spicy_38 l;
    _ ← load_baotu_64 l;
    _ ← load_dingtalk_38 l;
    _ ← load_baotu_28 l;
    Ok {| loaded_adlam := truetype "ADLaMDisplay-Regular.ttf" 36;
          loaded_spicy := truetype "SpicyRice-Regular.ttf" 38;
          loaded_baotu := truetype "baotu.ttf" 64;
          loaded_dingtalk := truetype "DingTalk-JinBuTi.ttf" 38;
          loaded_baotu_small := truetype "baotu.ttf" 28 |} in
  match body with
  | Ok fs => Ok fs
  | Raise e => if is_OSError e then Ok default_fonts else Raise e
  end.

End kawaii_renderer.

(** ** main.py: the command layer and its cache *)

Module main.
Import Py system_info kawaii_renderer.

Definition bytes : Type := list Byte.byte.

(** The plugin configuration: each option is set or left to its default. *)
Record AstrBotConfig := {
  cfg_only_superuser : option bool;
  cfg_cache_enabled : option bool;
  cfg_cache_expire_minutes : option Z;
  cfg_theme : option string;
  cfg_show_network : option bool;
  cfg_show_process_count : option bool }.

(** The fields of a [StatusPlugin] object.  [modules_imported] records
    whether the deferred import of the renderer and the collector
    succeeded: both attributes are set, or both are [None]. *)
Record StatusPlugin := {
  modules_imported : bool;
  only_superuser : bool;
  cache_enabled : bool;
  cache_expire : Z;
  theme : string;
  show_network : bool;
  show_process_count : bool;
  cache : gmap string (bytes * Q) }.

Definition set_cache (p : StatusPlugin) (c : gmap string (bytes * Q)) : StatusPlugin :=
  {| modules_imported := modules_imported p;
     only_superuser := only_superuser p;
     cache_enabled := cache_enabled p;
     cache_expire := cache_expire p;
     theme := theme p;
     show_network := show_network p;
     show_process_count := show_process_count p;
     cache := c |}.

Definition __init__ (imported : bool) (config : AstrBotConfig) : StatusPlugin :=
  {| modules_imported := imported;
     only_superuser := default false (cfg_only_superuser config);
     cache_enabled := default true (cfg_cache_enabled config);
     cache_expire := default 5 (cfg_cache_expire_minutes config) * 60;
     theme := default "light" (cfg_theme config);
     show_network := default true (cfg_show_network config);
     show_process_count := default true (cfg_show_process_count config);
     cache := ∅ |}.

Record AstrMessageEvent := { sender_id : string }.

Inductive reply : Type :=
| plain_result (message : string)
| chain_result_image (image : bytes).

Definition is_authorized (p : StatusPlugin) (event : AstrMessageEvent) : bool :=
  if negb (only_superuser p) then true else true.

(** [get_cached_image]; [now] is what [time.time()] returns if it is
    reached.  The plugin is returned because an expired entry is deleted. *)
Definition get_cached_image (p : StatusPlugin) (cache_key : string) (now : Q)
    : StatusPlugin * option bytes :=
  if negb (cache_enabled p) then (p, None) else
  match cache p !! cache_key with
  | None => (p, None)
  | Some (image_data, timestamp) =>
      if Qgtb (now - timestamp) (inject_Z (cache_expire p))
      then (set_cache p (delete cache_key (cache p)), None)
      else (p, Some image_data)
  end.

Definition cache_image (p : StatusPlugin) (cache_key : string)
    (image_data : bytes) (now : Q) : StatusPlugin :=
  if cache_enabled p
  then set_cache p (<[cache_key := (image_data, now)]> (cache p))
  else p.

Definition expired (p : StatusPlugin) (current_time : Q) (entry : bytes * Q) : bool :=
  Qgtb (current_time - snd entry) (inject_Z (cache_expire p)).

Definition clean_expired_cache (p : StatusPlugin) (current_time : Q) : StatusPlugin :=
  set_cache p
    (filter (fun kv => expired p current_time (snd kv) = false) (cache p)).

Fixpoint join (sep : string) (parts : list string) : string :=
  match parts with
  | [] => ""
  | [s] => s
  | s :: rest => s ++ sep ++ join sep rest
  end.

Section Commands.

(** [math.log10], [hashlib.md5(...).hexdigest()] on the encoded text, and
    the PNG encoding of the composed image. *)
Variable log10 : Q -> Q.
Variable md5_hexdigest : string -> string.
Variable png_encode : canvas -> bytes.

Definition get_cache_key (args : list string) : string :=
  md5_hexdigest (join "|" args).

(** [status_info.pop("network", None)]. *)
Definition pop_network (status_info : StatusInfo) : StatusInfo :=
  {| st_cpu := st_cpu status_info;
     st_memory := st_memory status_info;
     st_swap := st_swap status_info;
     st_disk := st_disk status_info;
     st_network := None;
     st_gpu := st_gpu status_info;
     st_system := st_system status_info |}.

(** The snapshot handed to the renderer: lines 192 to 196 of
    [status_command]. *)
Definition snapshot_to_render (p : StatusPlugin) (h : host) : result StatusInfo :=
  status_info ← get_all_status_info h;
  Ok (if negb (show_network p) then pop_network status_info else status_info).

Definition render_image (p : StatusPlugin) (h : host) (res : resources)
    : result bytes :=
  status_info ← snapshot_to_render p h;
  image ← render log10 res status_info;
  Ok (png_encode image).

(** [if cached_image:] is false for [None] and for empty bytes. *)
Definition truthy (cached_image : option bytes) : option bytes :=
  match cached_image with
  | Some (b :: rest) => Some (b :: rest)
  | _ => None
  end.

(** [status_command]: the plugin after the command and the results it
    yields.  [t_lookup], [t_store] and [t_sweep] are the readings of
    [time.time()] in [get_cached_image], [cache_image] and
    [clean_expired_cache]. *)
Definition status_command (p : StatusPlugin) (event : AstrMessageEvent)
    (h : host) (res : resources) (t_lookup t_store t_sweep : Q)
    : StatusPlugin * list reply :=
  if negb (modules_imported p) then
    (p, [plain_result "❌ 插件依赖未正确安装，请检查依赖包"])
  else if negb (is_authorized p event) then
    (p, [plain_result "❌ 权限不足，仅管理员可查看系统状态"])
  else
    let cache_key :=
      get_cache_key ["status"; theme p; str_bool (show_network p);
                     str_bool (show_process_count p)] in
    let looked := get_cached_image p cache_key t_lookup in
    match truthy (snd looked) with
    | Some cached_image => (fst looked, [chain_result_image cached_image])
    | None =>
        match render_image (fst looked) h res with
        | Ok image_data =>
            let p1 := cache_image (fst looked) cache_key image_data t_store in
            let p2 := clean_expired_cache p1 t_sweep in
            (p2, [chain_result_image image_data])
        | Raise e => (fst looked, [plain_result "❌ 生成状态图片时出现错误"])
        end
    end.

Definition clear_cache_command (p : StatusPlugin) (event : AstrMessageEvent)
    : StatusPlugin * list reply :=
  if negb (is_authorized p event) then (p, [plain_result "❌ 权限不足"])
  else
    let cache_count := size (cache p) in
    (set_cache p ∅,
     [plain_result ("✅ 已清理 " ++ str_int (Z.of_nat cache_count) ++ " 个缓存图片")]).

Definition terminate (p : StatusPlugin) : StatusPlugin := set_cache p ∅.

(** The commands that reach the cache, as one step of the plugin. *)
Inductive command : Type :=
| Status (event : AstrMessageEvent) (h : host) (res : resources)
         (t_lookup t_store t_sweep : Q)
| ClearCache (event : AstrMessageEvent)
| Terminate.

Definition step (p : StatusPlugin) (c : command) : StatusPlugin :=
  match c with
  | Status event h res t1 t2 t3 => fst (status_command p event h res t1 t2 t3)
  | ClearCache event => fst (clear_cache_command p event)
  | Terminate => terminate p
  end.

Definition run (p : StatusPlugin) (cs : list command) : StatusPlugin :=
  fold_left step cs p.

End Commands.

(** *** The configuration report *)

Definition nl : string := String (ascii_of_nat 10) "".

Definition mark (b : bool) : string := if b then "✅" else "❌".

Definition config_lines (p : StatusPlugin) : list string :=
  ["📊 Status 插件配置";
   "🔒 仅管理员: " ++ mark (only_superuser p);
   "💾 缓存启用: " ++ mark (cache_enabled p);
   "⏰ 缓存过期: " ++ str_int (cache_expire p / 60) ++ " 分钟";
   "🎨 主题: " ++ theme p;
   "🌐 显示网络: " ++ mark (show_network p);
   "📈 显示进程数: " ++ mark (show_process_count p);
   "🗂️ 缓存数量: " ++ str_int (Z.of_nat (size (cache p)))].

Definition config_text (p : StatusPlugin) : string := join nl (config_lines p).

Definition status_config_command (p : StatusPlugin) (event : AstrMessageEvent)
    : StatusPlugin * list reply :=
  if negb (is_authorized p event) then (p, [plain_result "❌ 权限不足"])
  else (p, [plain_result (config_text p)]).

(** *** Dependencies

    [_check_and_install_dependencies]: the value it returns and the
    [pip install] commands it runs, in order. *)

Inductive pip_outcome : Type :=
| pip_done
| pip_CalledProcessError
| pip_raises (e : exn).

Record install_env := {
  find_spec : string -> bool;          (* [find_spec(name) is not None] *)
  requirements_exists : bool;          (* requirements.txt beside main.py *)
  pip_install : list string -> pip_outcome }.

Definition required_packages : list (string * string) :=
  [("psutil", "psutil>=5.9.0");
   ("PIL", "Pillow>=9.0.0");
   ("matplotlib", "matplotlib>=3.5.0");
   ("cpuinfo", "py-cpuinfo>=9.0.0")].

Definition missing_packages (env : install_env) : list string :=
  map snd (List.filter (fun mp => negb (find_spec env (fst mp))) required_packages).

(** The loop [for package in missing_packages: check_call(...)]. *)
Fixpoint install_each (env : install_env) (packages : list string)
    : result bool * list (list string) :=
  match packages with
  | [] => (Ok true, [])
  | package :: rest =>
      match pip_install env [package] with
      | pip_done =>
          let r := install_each env rest in (fst r, [package] :: snd r)
      | pip_CalledProcessError => (Ok false, [[package]])
      | pip_raises e => (Raise e, [[package]])
      end
  end.

Definition _check_and_install_dependencies (env : install_env)
    : result bool * list (list string) :=
  match missing_packages env with
  | [] => (Ok true, [])
  | missing =>
      if requirements_exists env then
        let args := ["-r"; "requirements.txt"] in
        match pip_install env args with
        | pip_done => (Ok true, [args])
        | pip_CalledProcessError => (Ok false, [args])
        | pip_raises e => (Raise e, [args])
        end
      else install_each env missing
  end.

End main.

(** ** Vocabulary of the statements *)

Module spec.
Import Py system_info kawaii_renderer main.

(** A CPU snapshot with a given usage percent. *)
Definition with_usage (p : Q) : CPUInfo :=
  {| cpu_usage := p; cpu_freq := 0; cpu_cores := 1; cpu_brand := "";
     cpu_temperature := None |}.







Definition present {A : Type} (o : option A) : bool :=
  match o with Some _ => true | None => false end.





(** The snapshot of the specification's example: 100 bytes sent and 300
    received. *)
Definition sample_network : NetworkInfo :=
  {| bytes_sent := 100; bytes_recv := 300; packets_sent := 1; packets_recv := 3;
     upload_speed := 0; download_speed := 0 |}.

(** A plugin with the default configuration (cache enabled, TTL of five
    minutes), one with the cache switched off, and an image. *)
Definition default_config : AstrBotConfig :=
  {| cfg_only_superuser := None; cfg_cache_enabled := None;
     cfg_cache_expire_minutes := None; cfg_theme := None;
     cfg_show_network := None; cfg_show_process_count := None |}.

Definition cache_off_config : AstrBotConfig :=
  {| cfg_only_superuser := None; cfg_cache_enabled := Some false;
     cfg_cache_expire_minutes := None; cfg_theme := None;
     cfg_show_network := None; cfg_show_process_count := None |}.

Definition sample_plugin : StatusPlugin := __init__ true default_config.

Definition sample_image : bytes := [Byte.x89; Byte.x50; Byte.x4e; Byte.x47].

(** A host without GPU libraries whose other queries all answer, given
    what the swap and the disk queries do. *)
Definition no_pynvml : pynvml_probe :=
  {| nvml_import := Raise ModuleNotFoundError;
     nvmlInit := Ok tt;
     nvmlDeviceGetHandleByIndex := Ok tt;
     nvmlDeviceGetName_decoded := Ok "";
     nvmlDeviceGetUtilizationRates_gpu := Ok 0%Z;
     nvmlDeviceGetMemoryInfo := Ok (0%Z, 0%Z);
     nvmlDeviceGetTemperature := Ok 0%Q |}.

Definition no_GPUtil : GPUtil_probe :=
  {| gputil_import := Raise ModuleNotFoundError; getGPUs := Ok [] |}.

Definition sample_host (swap : result sswap) (disk : result sdiskusage) : host :=
  {| dockerenv_exists := false;
     proc_1_cgroup := Some (Ok "0::/init.scope");
     proc_self_mountinfo := None;
     psutil_cpu_percent := Ok 12.5%Q;
     psutil_cpu_freq := Ok (Some 2400%Q);
     psutil_cpu_count := Ok 8%Z;
     cpuinfo_brand_raw := Ok (Some "Example CPU");
     psutil_sensors_temperatures := Raise AttributeError;
     psutil_virtual_memory :=
       Ok {| vm_total := 17179869184; vm_used := 4294967296;
             vm_available := 12884901888; vm_percent := 25 |};
     psutil_swap_memory := swap;
     psutil_disk_usage := disk;
     psutil_net_io_counters :=
       Ok {| io_bytes_sent := 100; io_bytes_recv := 300;
             io_packets_sent := 1; io_packets_recv := 3 |};
     pynvml := no_pynvml;
     GPUtil := no_GPUtil;
     platform_uname :=
       Ok {| un_node := "host"; un_system := "Linux"; un_release := "6.1";
             un_machine := "x86_64" |};
     psutil_boot_time := Ok 1000%Q;
     time_time := 91000%Q;
     psutil_pids := Ok [1%Z; 2%Z; 3%Z] |}.

Definition sample_disk : sdiskusage :=
  {| du_total := 107374182400; du_used := 42949672960; du_free := 64424509440 |}.


(** A GPU that reports its load but no memory size. *)
Definition busy_gpu : GPUInfo :=
  {| gpu_name := "GPU"; gpu_usage := 50; gpu_memory_used := 0;
     gpu_memory_total := 0; gpu_temperature := None |}.


Definition sample_resources : resources :=
  {| background_loads := true; brand_raw := Ok (Some "Example CPU");
     plugins_dir := Ok None |}.

(** A snapshot with every metric present. *)
Definition sample_snapshot : StatusInfo :=
  {| st_cpu := Some (with_usage 12.5);
     st_memory := Some {| mem_total := 16; mem_used := 4; mem_available := 12;
                          mem_usage := 25 |};
     st_swap := Some {| swap_total := 8; swap_used := 2; swap_usage := 25 |};
     st_disk := Some {| disk_total := 100; disk_used := 40; disk_free := 60;
                        disk_usage := 40 |};
     st_network := Some sample_network;
     st_gpu := Some busy_gpu;
     st_system := Some {| hostname := "host"; system := "Linux"; release := "6.1";
                          architecture := "x86_64"; boot_time := 1000;
                          uptime := "1分钟"; process_count := 3 |} |}.

(** A coarse executable stand-in for [math.log10]: the binary logarithm
    of the integer part, scaled by log10(2) to five decimals. *)
Definition coarse_log10 (x : Q) : Q :=
  (inject_Z (Z.log2 (Qfloor x)) * 0.30103)%Q.

(** The cache key of a plugin: the one [status_command] computes. *)
Definition config_key (md5_hexdigest : string -> string) (p : StatusPlugin) : string :=
  get_cache_key md5_hexdigest
    ["status"; theme p; str_bool (show_network p);
     str_bool (show_process_count p)].

(** The replies that refuse a caller. *)
Definition refusals : list reply :=
  [plain_result "❌ 权限不足，仅管理员可查看系统状态"; plain_result "❌ 权限不足"].

(** A host on which every query fails. *)
Definition broken_host : host :=
  {| dockerenv_exists := false;
     proc_1_cgroup := None;
     proc_self_mountinfo := None;
     psutil_cpu_percent := Raise (RuntimeError "down");
     psutil_cpu_freq := Raise (RuntimeError "down");
     psutil_cpu_count := Raise (RuntimeError "down");
     cpuinfo_brand_raw := Raise (RuntimeError "down");
     psutil_sensors_temperatures := Raise (RuntimeError "down");
     psutil_virtual_memory := Raise (RuntimeError "down");
     psutil_swap_memory := Raise (RuntimeError "down");
     psutil_disk_usage := Raise (RuntimeError "down");
     psutil_net_io_counters := Raise (RuntimeError "down");
     pynvml := no_pynvml;
     GPUtil := no_GPUtil;
     platform_uname := Raise (RuntimeError "down");
     psutil_boot_time := Raise (RuntimeError "down");
     time_time := 0%Q;
     psutil_pids := Raise (RuntimeError "down") |}.

(** The configuration of a plugin: everything but its cache. *)
Definition same_config (p q : StatusPlugin) : Prop :=
  modules_imported p = modules_imported q /\
  only_superuser p = only_superuser q /\
  cache_enabled p = cache_enabled q /\
  cache_expire p = cache_expire q /\
  theme p = theme q /\
  show_network p = show_network q /\
  show_process_count p = show_process_count q.

(** A sensor name that [get_cpu_info] takes for a CPU sensor. *)
Definition is_cpu_sensor (name : string) : bool :=
  contains "cpu" (lower name) || contains "core" (lower name).

(** The snapshot built from a device reported by [GPUtil]. *)
Definition of_GPUtil (gpu : GPUtil_gpu) : GPUInfo :=
  {| gpu_name := gu_name gpu;
     gpu_usage := (gu_load gpu * 100)%Q;
     gpu_memory_used := (gu_memoryUsed gpu / 1024)%Q;
     gpu_memory_total := (gu_memoryTotal gpu / 1024)%Q;
     gpu_temperature := gu_temperature gpu |}.

(** A host whose /proc/1/cgroup cannot be read while its mountinfo
    mentions docker. *)
Definition cgroup_unreadable_host : host :=
  {| dockerenv_exists := false;
     proc_1_cgroup := Some (Raise PermissionError);
     proc_self_mountinfo := Some (Ok "overlay /var/lib/docker/overlay2");
     psutil_cpu_percent := Ok 0%Q;
     psutil_cpu_freq := Ok None;
     psutil_cpu_count := Ok 1%Z;
     cpuinfo_brand_raw := Ok None;
     psutil_sensors_temperatures := Ok [];
     psutil_virtual_memory := Raise OSError;
     psutil_swap_memory := Raise OSError;
     psutil_disk_usage := Raise OSError;
     psutil_net_io_counters := Raise OSError;
     pynvml := no_pynvml;
     GPUtil := no_GPUtil;
     platform_uname := Raise OSError;
     psutil_boot_time := Ok 0%Q;
     time_time := 0%Q;
     psutil_pids := Ok [] |}.

(** The only exception [r] can raise is ZeroDivisionError. *)
Definition only_zero_division {A : Type} (r : result A) : Prop :=
  forall e, r = Raise e -> e = ZeroDivisionError.

(** The seven transparent ellipses that hollow the rings. *)
Definition hollows : list draw_call :=
  [draw_ellipse (108, 729, 212, 833) transparent_color;
   draw_ellipse (108, 883, 212, 987) transparent_color;
   draw_ellipse (108, 1037, 212, 1141) transparent_color;
   draw_ellipse (108, 1192, 212, 1295) transparent_color;
   draw_ellipse (565, 883, 669, 987) transparent_color;
   draw_ellipse (565, 1037, 669, 1141) transparent_color;
   draw_ellipse (565, 1192, 669, 1295) transparent_color].

Definition is_arc (c : draw_call) : bool :=
  match c with draw_arc _ _ _ _ _ => true | _ => false end.

Definition is_text (c : draw_call) : bool :=
  match c with draw_text _ _ _ _ _ => true | _ => false end.


(** All four entries that [render] reads with [status_info[key]]. *)
Definition required_present (st : StatusInfo) : bool :=
  present (st_cpu st) && present (st_memory st) && present (st_disk st)
  && present (st_system st).

(** [r] returns. *)
Definition succeeds {A : Type} (r : result A) : Prop := exists a, r = Ok a.

(** What the collector returns on the sample host. *)
Definition collected_sample : StatusInfo :=
  match get_all_status_info (sample_host (Raise PermissionError) (Ok sample_disk)) with
  | Ok st => st
  | Raise _ => sample_snapshot
  end.

(** The five fonts of a card whose font files all load. *)
Definition custom_fonts : font_set :=
  {| loaded_adlam := truetype "ADLaMDisplay-Regular.ttf" 36;
     loaded_spicy := truetype "SpicyRice-Regular.ttf" 38;
     loaded_baotu := truetype "baotu.ttf" 64;
     loaded_dingtalk := truetype "DingTalk-JinBuTi.ttf" 38;
     loaded_baotu_small := truetype "baotu.ttf" 28 |}.

(** Every one of the five font loads succeeds. *)
Definition all_loaded (l : font_loads) : Prop :=
  load_adlam_36 l = Ok tt /\ load_spicy_38 l = Ok tt /\
  load_baotu_64 l = Ok tt /\ load_dingtalk_38 l = Ok tt /\
  load_baotu_28 l = Ok tt.

(** Font files where only the DingTalk font is missing. *)
Definition dingtalk_missing : font_loads :=
  {| load_adlam_36 := Ok tt; load_spicy_38 := Ok tt; load_baotu_64 := Ok tt;
     load_dingtalk_38 := Raise FileNotFoundError; load_baotu_28 := Ok tt |}.


(** The [pip install] command of one package. *)
Definition install_of (package : string) : list string := [package].

(** The [pip install] command of the requirements file. *)
Definition install_requirements : list string := ["-r"; "requirements.txt"].

(** An environment without matplotlib and without a requirements file,
    where every install succeeds. *)
Definition matplotlib_missing : install_env :=
  {| find_spec := fun m => negb (String.eqb m "matplotlib");
     requirements_exists := false;
     pip_install := fun _ => pip_done |}.

End spec.

(** * Properties *)

(** ** Facts about the Python layer *)

Section PyFacts.
Import Py.

Lemma Qltb_lt (x y : Q) : Qltb x y = true <-> (x < y)%Q.
Proof.
  unfold Qltb. rewrite Qlt_alt. destruct (x ?= y)%Q; split; congruence.
Qed.

Lemma Qltb_ge (x y : Q) : Qltb x y = false <-> (y <= x)%Q.
Proof.
  rewrite <- Bool.not_true_iff_false, Qltb_lt. split.
  - apply Qnot_lt_le.
  - intros H1 H2. exact (Qlt_not_le _ _ H2 H1).
Qed.

Lemma Qgtb_gt (x y : Q) : Qgtb x y = true <-> (y < x)%Q.
Proof. apply Qltb_lt. Qed.

Lemma Qgtb_le (x y : Q) : Qgtb x y = false <-> (x <= y)%Q.
Proof. apply Qltb_ge. Qed.

Lemma truediv_ok (x y : Q) : ~ (y == 0)%Q -> truediv x y = Ok (x / y)%Q.
Proof.
  intros Hy. unfold truediv.
  destruct (Qeq_bool y 0) eqn:E; [|reflexivity].
  apply Qeq_bool_iff in E. contradiction.
Qed.

Lemma truediv_zero (x y : Q) : (y == 0)%Q -> truediv x y = Raise ZeroDivisionError.
Proof.
  intros Hy. unfold truediv. apply Qeq_bool_iff in Hy. now rewrite Hy.
Qed.


End PyFacts.

(** Tactics for code in the [result] monad: unfold the binds, case on the
    next computation that can raise, open a block whose result is known. *)
Ltac bind_simpl := unfold mbind, result_bind, Py.bind in *.

Ltac next_result H :=
  match type of H with
  | context [match ?r with Py.Ok _ => _ | Py.Raise _ => _ end] =>
      destruct r eqn:?; [|discriminate H]
  end.

Ltac open_block :=
  match goal with
  | E : match ?r with Py.Ok _ => _ | Py.Raise _ => _ end = Py.Ok _ |- _ =>
      destruct r eqn:?; [injection E as <- | discriminate E]
  | E : Py.Ok _ = Py.Ok _ |- _ => injection E as <-
  end.

(** ** The ring sweep angle *)

Section SweepAngle.
Import Py system_info kawaii_renderer spec.








End SweepAngle.

(** ** The share of each network direction *)

Section NetworkShare.
Import Py system_info kawaii_renderer spec.


Lemma share_percentage_positive (this : Z) (n : NetworkInfo) :
  (0 < bytes_sent n + bytes_recv n)%Z ->
  share_percentage this n =
  Ok (inject_Z this / inject_Z (bytes_sent n + bytes_recv n) * 100)%Q.
Proof.
  intros H. unfold share_percentage. cbv zeta.
  assert (E : (bytes_sent n + bytes_recv n >? 0)%Z = true) by (apply Z.gtb_lt; lia).
  rewrite E, truediv_ok; [reflexivity|].
  intros Hz. unfold Qeq in Hz. simpl in Hz. lia.
Qed.

Lemma share_percentage_never_raises (this : Z) (n : NetworkInfo) :
  raises (share_percentage this n) = false.
Proof.
  destruct (Z.ltb_spec 0 (bytes_sent n + bytes_recv n)) as [H|H].
  - now rewrite share_percentage_positive.
  - unfold share_percentage. cbv zeta.
    destruct (Z.gtb_spec (bytes_sent n + bytes_recv n) 0); [lia|reflexivity].
Qed.

End NetworkShare.

(** ** The log-scale ring of the network counters *)

Section NetworkRing.
Import Py system_info kawaii_renderer spec.

Variable log10 : Q -> Q.
Hypothesis log10_1 : (log10 1 == 0)%Q.
Hypothesis log10_max_bytes : ~ (log10 (inject_Z (2 ^ 40)) == 0)%Q.

Lemma ring_percentage_zero : ring_percentage log10 0 = Ok 0%Q.
Proof. reflexivity. Qed.



End NetworkRing.



(** ** Byte counts in binary units *)

Section FormatBytes.
Import Py system_info kawaii_renderer spec.








End FormatBytes.

(** ** Uptime formatting *)

Section Uptime.
Import Py system_info spec.

Lemma Qfloor_div_Z (x : Q) (n : Z) :
  (0 < n)%Z -> Qfloor (x / inject_Z n) = (Qfloor x / n)%Z.
Proof.
  intros Hn. destruct x as [a d].
  unfold Qfloor at 2. 
  assert (E : ((a # d) / inject_Z n == a # (d * Z.to_pos n))%Q).
  { unfold Qeq, Qdiv, Qmult, Qinv, inject_Z. destruct n as [|p|p]; try lia.
    simpl. rewrite Pos2Z.inj_mul. ring. }
  rewrite E. unfold Qfloor. rewrite Pos2Z.inj_mul, Z2Pos.id by assumption.
  symmetry. apply Z.div_div; lia.
Qed.

Lemma int_of_nonneg (x : Q) : (0 <= x)%Q -> int_of x = Qfloor x.
Proof.
  intros H. unfold int_of. apply Qltb_ge in H. now rewrite H.
Qed.

Lemma int_of_inject_Z (z : Z) : int_of (inject_Z z) = z.
Proof.
  unfold int_of. destruct (Qltb (inject_Z z) 0) eqn:E.
  - rewrite <- inject_Z_opp, Qfloor_Z. lia.
  - apply Qfloor_Z.
Qed.

Lemma Qfloor_sub_Z (x : Q) (k : Z) :
  Qfloor (x - inject_Z k) = (Qfloor x - k)%Z.
Proof.
  assert (Hlo := Qfloor_le x). assert (Hhi := Qlt_floor x).
  assert (Hlo' := Qfloor_le (x - inject_Z k)).
  assert (Hhi' := Qlt_floor (x - inject_Z k)).
  rewrite inject_Z_plus in Hhi, Hhi'.
  assert (A : (inject_Z (Qfloor (x - inject_Z k)) < inject_Z (Qfloor x - k + 1))%Q).
  { unfold Z.sub. rewrite !inject_Z_plus, inject_Z_opp. change (inject_Z 1) with 1%Q in *. lra. }
  assert (B : (inject_Z (Qfloor x - k) < inject_Z (Qfloor (x - inject_Z k) + 1))%Q).
  { unfold Z.sub. rewrite !inject_Z_plus, inject_Z_opp. change (inject_Z 1) with 1%Q in *. lra. }
  rewrite <- Zlt_Qlt in A, B. lia.
Qed.

Lemma uptime_days_eq (s : Q) : uptime_days s = (Qfloor s / 86400)%Z.
Proof.
  unfold uptime_days, floordiv. rewrite int_of_inject_Z.
  apply (Qfloor_div_Z s 86400). lia.
Qed.

Lemma pymod_floor (s : Q) (m n : Z) :
  (0 < m)%Z -> (0 < n)%Z ->
  Qfloor (pymod s (inject_Z (m * n)) / inject_Z n) = ((Qfloor s / n) mod m)%Z.
Proof.
  intros Hm Hn. unfold pymod, floordiv.
  rewrite (Qfloor_div_Z s (m * n)) by lia.
  assert (E : ((s - inject_Z (m * n) * inject_Z (Qfloor s / (m * n))) / inject_Z n
               == s / inject_Z n - inject_Z (m * (Qfloor s / (m * n))))%Q).
  { rewrite !inject_Z_mult. field. intros H. unfold Qeq in H. simpl in H. lia. }
  rewrite E, Qfloor_sub_Z, Qfloor_div_Z by assumption.
  rewrite (Z.mul_comm m n), <- Z.div_div by lia.
  rewrite Z.mod_eq by lia. reflexivity.
Qed.

Lemma uptime_hours_eq (s : Q) : uptime_hours s = ((Qfloor s / 3600) mod 24)%Z.
Proof.
  unfold uptime_hours, floordiv at 1. rewrite int_of_inject_Z.
  apply (pymod_floor s 24 3600); lia.
Qed.

Lemma uptime_minutes_eq (s : Q) : uptime_minutes s = ((Qfloor s / 60) mod 60)%Z.
Proof.
  unfold uptime_minutes, floordiv at 1. rewrite int_of_inject_Z.
  apply (pymod_floor s 60 60); lia.
Qed.

Lemma format_uptime_cases (s : Q) :
  let d := (Qfloor s / 86400)%Z in
  let h := ((Qfloor s / 3600) mod 24)%Z in
  let m := ((Qfloor s / 60) mod 60)%Z in
  format_uptime s =
  if (d >? 0)%Z then
    str_int d ++ "天 " ++ str_int h ++ "小时 " ++ str_int m ++ "分钟"
  else if (h >? 0)%Z then str_int h ++ "小时 " ++ str_int m ++ "分钟"
  else str_int m ++ "分钟".
Proof.
  intros d h m. unfold format_uptime.
  rewrite uptime_days_eq, uptime_hours_eq, uptime_minutes_eq. reflexivity.
Qed.

(** C2, counterexample.  For 90000 seconds the day count is positive and
    the text still carries a minutes component. *)
Lemma format_uptime_days_keep_minutes :
  (uptime_days 90000 > 0)%Z /\
  format_uptime 90000 = "1天 1小时 0分钟" /\
  contains "分钟" (format_uptime 90000) = true.
Proof. repeat split. Qed.

(** C2, amended.  For an uptime of s >= 0 seconds, with d = floor(s) / 86400,
    h = (floor(s) / 3600) mod 24 and m = (floor(s) / 60) mod 60:
    when d > 0 the text shows days, hours and minutes; when d = 0 and h > 0
    it shows hours and minutes; when d = 0 and h = 0 it shows only minutes.
    So 90 seconds give "1分钟", 3665 seconds give "1小时 1分钟" and 90000
    seconds give "1天 1小时 0分钟". *)
Theorem format_uptime_units :
  (forall s : Q, (0 <= s)%Q ->
     let d := (Qfloor s / 86400)%Z in
     let h := ((Qfloor s / 3600) mod 24)%Z in
     let m := ((Qfloor s / 60) mod 60)%Z in
     (0 <= d /\ 0 <= h < 24 /\ 0 <= m < 60)%Z /\
     ((0 < d)%Z ->
        format_uptime s =
        str_int d ++ "天 " ++ str_int h ++ "小时 " ++ str_int m ++ "分钟") /\
     (d = 0%Z -> (0 < h)%Z ->
        format_uptime s = str_int h ++ "小时 " ++ str_int m ++ "分钟") /\
     (d = 0%Z -> h = 0%Z -> format_uptime s = str_int m ++ "分钟")) /\
  format_uptime 90 = "1分钟" /\
  format_uptime 3665 = "1小时 1分钟" /\
  format_uptime 90000 = "1天 1小时 0分钟".
Proof.
  split; [|repeat split].
  intros s Hs d h m.
  assert (Hf : (0 <= Qfloor s)%Z).
  { change 0%Z with (Qfloor 0). now apply Qfloor_resp_le. }
  assert (Hd : (0 <= d)%Z) by (apply Z.div_pos; lia).
  assert (Hh : (0 <= h < 24)%Z) by (apply Z.mod_pos_bound; lia).
  assert (Hm : (0 <= m < 60)%Z) by (apply Z.mod_pos_bound; lia).
  pose proof (format_uptime_cases s) as E. cbv zeta in E. fold d h m in E.
  split; [auto|]. split; [|split].
  - intros Hpos. rewrite E.
    assert (G : (d >? 0)%Z = true) by (apply Z.gtb_lt; lia). now rewrite G.
  - intros H0 Hpos. rewrite E, H0.
    assert (G : (h >? 0)%Z = true) by (apply Z.gtb_lt; lia).
    now rewrite G.
  - intros H0 H1. rewrite E, H0, H1. reflexivity.
Qed.

Lemma format_uptime_units_witness :
  format_uptime 200000 =
  str_int 2 ++ "天 " ++ str_int 7 ++ "小时 " ++ str_int 33 ++ "分钟".
Proof.
  apply (proj1 format_uptime_units 200000%Q); [discriminate | reflexivity].
Defined.

End Uptime.

(** ** The image cache *)

Section Cache.
Import Py system_info kawaii_renderer main spec.

Lemma get_cached_image_fresh (p : StatusPlugin) (k : string) (v : bytes) (ts now : Q) :
  cache_enabled p = true ->
  cache p !! k = Some (v, ts) ->
  (now - ts <= inject_Z (cache_expire p))%Q ->
  get_cached_image p k now = (p, Some v).
Proof.
  intros Hen Hk Hage. unfold get_cached_image. rewrite Hen, Hk. simpl.
  apply Qgtb_le in Hage. now rewrite Hage.
Qed.

Lemma get_cached_image_expired (p : StatusPlugin) (k : string) (v : bytes) (ts now : Q) :
  cache_enabled p = true ->
  cache p !! k = Some (v, ts) ->
  (inject_Z (cache_expire p) < now - ts)%Q ->
  get_cached_image p k now = (set_cache p (delete k (cache p)), None).
Proof.
  intros Hen Hk Hage. unfold get_cached_image. rewrite Hen, Hk. simpl.
  apply Qgtb_gt in Hage. now rewrite Hage.
Qed.

Lemma cache_image_lookup (p : StatusPlugin) (k : string) (v : bytes) (now : Q) :
  cache_enabled p = true ->
  cache (cache_image p k v now) !! k = Some (v, now) /\
  cache_enabled (cache_image p k v now) = true /\
  cache_expire (cache_image p k v now) = cache_expire p.
Proof.
  intros Hen. unfold cache_image. rewrite Hen. simpl.
  split; [apply lookup_insert_eq | auto].
Qed.

Lemma clear_cache_command_eq (p : StatusPlugin) (event : AstrMessageEvent) :
  clear_cache_command p event =
  (set_cache p ∅,
   [plain_result ("✅ 已清理 " ++ str_int (Z.of_nat (size (cache p))) ++ " 个缓存图片")]).
Proof.
  unfold clear_cache_command, is_authorized. now destruct (only_superuser p).
Qed.

(** C5. With caching enabled: storing v under k at time t0 and looking k
    up at a time t1 with t1 - t0 <= TTL returns v; looking up an entry
    whose age exceeds the TTL returns nothing and deletes the entry; and
    the clear command empties the map and reports how many entries it
    held. *)
Theorem cache_put_get_expire_clear
    (p : StatusPlugin) (k : string) (v : bytes) (t0 t1 : Q)
    (event : AstrMessageEvent) :
  cache_enabled p = true ->
  ((t1 - t0 <= inject_Z (cache_expire p))%Q ->
     get_cached_image (cache_image p k v t0) k t1
     = (cache_image p k v t0, Some v)) /\
  (forall ts, cache p !! k = Some (v, ts) ->
     (inject_Z (cache_expire p) < t1 - ts)%Q ->
     snd (get_cached_image p k t1) = None /\
     cache (fst (get_cached_image p k t1)) = delete k (cache p) /\
     cache (fst (get_cached_image p k t1)) !! k = None) /\
  ((inject_Z (cache_expire p) < t1 - t0)%Q ->
     snd (get_cached_image (cache_image p k v t0) k t1) = None /\
     cache (fst (get_cached_image (cache_image p k v t0) k t1)) !! k = None) /\
  cache (fst (clear_cache_command p event)) = ∅ /\
  snd (clear_cache_command p event) =
    [plain_result ("✅ 已清理 " ++ str_int (Z.of_nat (size (cache p))) ++ " 个缓存图片")].
Proof.
  intros Hen.
  destruct (cache_image_lookup p k v t0 Hen) as (Hl & Hen' & Hexp).
  split; [|split; [|split]].
  - intros Hage. apply (get_cached_image_fresh _ k v t0); auto.
    now rewrite Hexp.
  - intros ts Hk Hage.
    rewrite (get_cached_image_expired p k v ts t1) by assumption. simpl.
    split; [reflexivity|]. split; [reflexivity|]. apply lookup_delete_eq.
  - intros Hage.
    rewrite (get_cached_image_expired _ k v t0 t1); auto.
    + simpl. split; [reflexivity|]. apply lookup_delete_eq.
    + now rewrite Hexp.
  - rewrite clear_cache_command_eq. simpl. auto.
Qed.

Lemma cache_put_get_expire_clear_witness :
  get_cached_image (cache_image sample_plugin "k" sample_image 1000) "k" 1300
  = (cache_image sample_plugin "k" sample_image 1000, Some sample_image).
Proof.
  apply (cache_put_get_expire_clear sample_plugin "k" sample_image 1000 1300
           {| sender_id := "u" |}); [reflexivity | discriminate].
Defined.

End Cache.

(** ** The cache switched off *)

Section CacheOff.
Import Py system_info kawaii_renderer main spec.

Variable log10 : Q -> Q.
Variable md5_hexdigest : string -> string.
Variable png_encode : canvas -> bytes.

Lemma get_cached_image_off (p : StatusPlugin) (k : string) (now : Q) :
  cache_enabled p = false -> get_cached_image p k now = (p, None).
Proof. intros H. unfold get_cached_image. now rewrite H. Qed.

Lemma cache_image_off (p : StatusPlugin) (k : string) (v : bytes) (now : Q) :
  cache_enabled p = false -> cache_image p k v now = p.
Proof. intros H. unfold cache_image. now rewrite H. Qed.

Lemma status_command_off (p : StatusPlugin) (event : AstrMessageEvent)
    (h : host) (res : resources) (t1 t2 t3 : Q) :
  cache_enabled p = false ->
  modules_imported p = true ->
  status_command log10 md5_hexdigest png_encode p event h res t1 t2 t3 =
  match render_image log10 png_encode p h res with
  | Ok image_data => (clean_expired_cache p t3, [chain_result_image image_data])
  | Raise _ => (p, [plain_result "❌ 生成状态图片时出现错误"])
  end.
Proof.
  intros Hoff Himp. unfold status_command, is_authorized.
  rewrite Himp. simpl.
  replace (if negb (only_superuser p) then true else true) with true
    by now destruct (only_superuser p).
  simpl. rewrite get_cached_image_off by assumption. simpl.
  destruct (render_image log10 png_encode p h res); [|reflexivity].
  now rewrite cache_image_off.
Qed.

Lemma set_cache_same (p : StatusPlugin) : set_cache p (cache p) = p.
Proof. now destruct p. Qed.

Lemma clean_expired_cache_empty (p : StatusPlugin) (now : Q) :
  cache p = ∅ -> clean_expired_cache p now = p.
Proof.
  intros H. unfold clean_expired_cache. rewrite H, map_filter_empty.
  rewrite <- H. apply set_cache_same.
Qed.

(** One command keeps a switched-off, empty cache as it is. *)
Lemma step_off (p : StatusPlugin) (c : command) :
  cache_enabled p = false -> cache p = ∅ ->
  step log10 md5_hexdigest png_encode p c = p.
Proof.
  intros Hoff Hempty. destruct c as [event h res t1 t2 t3|event|]; simpl.
  - destruct (modules_imported p) eqn:Himp.
    + rewrite status_command_off by assumption.
      destruct (render_image log10 png_encode p h res); simpl; [|reflexivity].
      now apply clean_expired_cache_empty.
    + unfold status_command. now rewrite Himp.
  - rewrite clear_cache_command_eq. simpl. rewrite <- Hempty. apply set_cache_same.
  - unfold terminate. rewrite <- Hempty. apply set_cache_same.
Qed.

Lemma run_off (p : StatusPlugin) (cs : list command) :
  cache_enabled p = false -> cache p = ∅ ->
  run log10 md5_hexdigest png_encode p cs = p.
Proof.
  intros Hoff Hempty. unfold run. induction cs as [|c cs IH]; simpl.
  - reflexivity.
  - now rewrite step_off.
Qed.

End CacheOff.

(** C10. With [cache_enabled] false: [get_cached_image] returns nothing
    for every key whatever the map holds and leaves the plugin as it is;
    [cache_image] leaves the plugin as it is; a status request answers
    with a freshly collected and rendered image (or the error message if
    that raises); and a plugin created with the cache switched off is
    unchanged, its map still empty, after any sequence of commands. *)
Theorem cache_disabled_never_touched
    (log10 : Q -> Q) (md5_hexdigest : string -> string)
    (png_encode : kawaii_renderer.canvas -> main.bytes) :
  (forall p, main.cache_enabled p = false ->
     (forall k now, main.get_cached_image p k now = (p, None)) /\
     (forall k v now, main.cache_image p k v now = p) /\
     (forall event h res t1 t2 t3, main.modules_imported p = true ->
        snd (main.status_command log10 md5_hexdigest png_encode p event h res t1 t2 t3)
        = match main.render_image log10 png_encode p h res with
          | Py.Ok image_data => [main.chain_result_image image_data]
          | Py.Raise _ => [main.plain_result "❌ 生成状态图片时出现错误"]
          end)) /\
  (forall imported config cs,
     main.cfg_cache_enabled config = Some false ->
     main.run log10 md5_hexdigest png_encode (main.__init__ imported config) cs
     = main.__init__ imported config /\
     main.cache (main.run log10 md5_hexdigest png_encode
                   (main.__init__ imported config) cs) = ∅).
Proof.
  split.
  - intros p Hoff. split; [|split].
    + intros k now. now apply get_cached_image_off.
    + intros k v now. now apply cache_image_off.
    + intros event h res t1 t2 t3 Himp.
      rewrite status_command_off by assumption.
      now destruct (main.render_image log10 png_encode p h res).
  - intros imported config cs Hcfg.
    assert (Hoff : main.cache_enabled (main.__init__ imported config) = false).
    { unfold main.__init__. simpl. now rewrite Hcfg. }
    rewrite run_off; auto.
Qed.

Lemma cache_disabled_never_touched_witness :
  main.get_cached_image (main.__init__ true spec.cache_off_config) "k" 0
  = (main.__init__ true spec.cache_off_config, None).
Proof.
  apply (proj1 (cache_disabled_never_touched spec.coarse_log10 (fun s => s)
                  (fun _ => spec.sample_image))
           (main.__init__ true spec.cache_off_config)).
  reflexivity.
Defined.

(** ** Which failures the collector absorbs *)

Section Collector.
Import Py system_info kawaii_renderer main spec.


Lemma get_gpu_info_placeholder (h : host) (e e' : exn) :
  nvml_import (pynvml h) = Raise e -> is_ImportError e = true ->
  gputil_import (GPUtil h) = Raise e' -> is_ImportError e' = true ->
  get_gpu_info h = Ok unknown_gpu.
Proof.
  intros H1 He H2 He'. unfold get_gpu_info, pynvml_gpu, GPUtil_gpu_info.
  rewrite H1, H2. bind_simpl. now rewrite He, He'.
Qed.

Lemma get_gpu_info_backend_error (h : host) (e : exn) :
  pynvml_gpu (pynvml h) = Raise e -> is_ImportError e = false ->
  get_gpu_info h = Ok no_gpu.
Proof.
  intros H1 He. unfold get_gpu_info. now rewrite H1, He.
Qed.


Lemma get_swap_info_no_swap (h : host) (b : bool) (swap : sswap) :
  is_docker_environment h = Ok b ->
  psutil_swap_memory h = Ok swap -> sw_total swap = 0%Z ->
  get_swap_info h = Ok zero_swap.
Proof.
  intros Hd Hs H0. unfold get_swap_info. rewrite Hd, Hs. bind_simpl.
  now rewrite H0.
Qed.









End Collector.

(** ** What the card shows for each snapshot *)

Section Layout.
Import Py system_info kawaii_renderer main spec.

Variable log10 : Q -> Q.







(** What [render] returns, when it returns. *)
Lemma render_calls (res : resources) (st : StatusInfo) (cv : canvas) :
  render log10 res st = Ok cv ->
  exists c m d sy arcs,
    st_cpu st = Some c /\ st_memory st = Some m /\ st_disk st = Some d /\
    st_system st = Some sy /\
    _draw_progress_arcs log10 c m (st_swap st) d (st_gpu st) (st_network st)
      = Ok arcs /\
    calls cv = (render_rows c m (st_swap st) d (st_gpu st) (st_network st)
                ++ arcs ++ _draw_system_details res sy c)%list.
Proof.
  intros H. unfold render, getitem in H. cbv zeta in H. bind_simpl.
  destruct (st_cpu st) as [c|]; [|discriminate H].
  destruct (st_memory st) as [m|]; [|discriminate H].
  destruct (st_disk st) as [d|]; [|discriminate H].
  destruct (st_system st) as [sy|]; [|discriminate H].
  destruct (_draw_progress_arcs log10 c m (st_swap st) d (st_gpu st)
              (st_network st)) as [arcs|e] eqn:E; [|discriminate H].
  injection H as <-. exists c, m, d, sy, arcs. auto 10.
Qed.


End Layout.

(** ** Optional snapshots on the card *)

Section OptionalSnapshots.
Import Py system_info kawaii_renderer main spec.






End OptionalSnapshots.

(** ** Guards of the ratio percents *)

Section RatioGuards.
Import Py system_info kawaii_renderer main spec.










End RatioGuards.

(** ** The labels of the network directions *)

Section NetworkLabels.
Import Py system_info kawaii_renderer main spec.




End NetworkLabels.

(** * Further properties of the code *)

(** ** The sweep of the cache *)

Section Sweep.
Import Py system_info kawaii_renderer main spec.

Lemma clean_expired_cache_lookup_Some (p : StatusPlugin) (now : Q)
    (k : string) (e : bytes * Q) :
  cache (clean_expired_cache p now) !! k = Some e <->
  cache p !! k = Some e /\ expired p now e = false.
Proof.
  unfold clean_expired_cache. simpl. apply map_lookup_filter_Some.
Qed.

Lemma expired_set_cache (p : StatusPlugin) (c : gmap string (bytes * Q))
    (now : Q) (e : bytes * Q) :
  expired (set_cache p c) now e = expired p now e.
Proof. reflexivity. Qed.

(** [clean_expired_cache] removes exactly the entries older than the TTL:
    what stays is not older than the TTL, what is not older stays as it
    was, nothing is added, and the switch [cache_enabled] plays no part. *)
Theorem clean_expired_cache_removes_expired (p : StatusPlugin) (now : Q) :
  (forall k v ts, cache (clean_expired_cache p now) !! k = Some (v, ts) ->
     cache p !! k = Some (v, ts) /\ (now - ts <= inject_Z (cache_expire p))%Q) /\
  (forall k v ts, cache p !! k = Some (v, ts) ->
     (now - ts <= inject_Z (cache_expire p))%Q ->
     cache (clean_expired_cache p now) !! k = Some (v, ts)) /\
  (forall k v ts, cache p !! k = Some (v, ts) ->
     (inject_Z (cache_expire p) < now - ts)%Q ->
     cache (clean_expired_cache p now) !! k = None) /\
  (size (cache (clean_expired_cache p now)) <= size (cache p))%nat.
Proof.
  split; [|split; [|split]].
  - intros k v ts H. apply clean_expired_cache_lookup_Some in H as [H E].
    split; [assumption|]. now apply Qgtb_le in E.
  - intros k v ts H Hage. apply clean_expired_cache_lookup_Some.
    split; [assumption|]. now apply Qgtb_le.
  - intros k v ts H Hage.
    destruct (cache (clean_expired_cache p now) !! k) as [e|] eqn:E; [|reflexivity].
    apply clean_expired_cache_lookup_Some in E as [E1 E2].
    rewrite H in E1. injection E1 as <-.
    apply Qgtb_le in E2. simpl in E2. exfalso. exact (Qlt_not_le _ _ Hage E2).
  - unfold clean_expired_cache. simpl. apply map_subseteq_size, map_filter_subseteq.
Qed.

Lemma clean_expired_cache_removes_expired_witness :
  cache (clean_expired_cache (cache_image sample_plugin "k" sample_image 1000) 1200)
    !! "k" = Some (sample_image, 1000%Q).
Proof.
  apply (proj1 (proj2 (clean_expired_cache_removes_expired
                         (cache_image sample_plugin "k" sample_image 1000) 1200))).
  - reflexivity.
  - discriminate.
Defined.

(** Sweeping twice at the same time is sweeping once. *)
Theorem clean_expired_cache_idempotent (p : StatusPlugin) (now : Q) :
  clean_expired_cache (clean_expired_cache p now) now = clean_expired_cache p now.
Proof.
  unfold clean_expired_cache at 1.
  rewrite map_filter_id; [apply set_cache_same|].
  intros k e H. apply clean_expired_cache_lookup_Some in H as [_ E].
  exact E.
Qed.

End Sweep.

(** ** Requests served from the cache *)

Section CacheHit.
Import Py system_info kawaii_renderer main spec.

Variable log10 : Q -> Q.
Variable md5_hexdigest : string -> string.
Variable png_encode : canvas -> bytes.

Lemma status_command_authorized (p : StatusPlugin) (event : AstrMessageEvent)
    (h : host) (res : resources) (t1 t2 t3 : Q) :
  modules_imported p = true ->
  status_command log10 md5_hexdigest png_encode p event h res t1 t2 t3 =
  let looked := get_cached_image p (config_key md5_hexdigest p) t1 in
  match truthy (snd looked) with
  | Some cached_image => (fst looked, [chain_result_image cached_image])
  | None =>
      match render_image log10 png_encode (fst looked) h res with
      | Ok image_data =>
          (clean_expired_cache
             (cache_image (fst looked) (config_key md5_hexdigest p) image_data t2) t3,
           [chain_result_image image_data])
      | Raise _ => (fst looked, [plain_result "❌ 生成状态图片时出现错误"])
      end
  end.
Proof.
  intros Himp. unfold status_command, is_authorized, config_key.
  rewrite Himp. simpl negb. cbv iota.
  now destruct (only_superuser p).
Qed.

Lemma render_image_set_cache (p : StatusPlugin) (c : gmap string (bytes * Q))
    (h : host) (res : resources) :
  render_image log10 png_encode (set_cache p c) h res
  = render_image log10 png_encode p h res.
Proof. reflexivity. Qed.

Lemma cache_hit_answers (p : StatusPlugin) (event : AstrMessageEvent)
    (h : host) (res : resources) (t1 t2 t3 ts : Q) (b : Byte.byte) (image : bytes) :
  modules_imported p = true ->
  cache_enabled p = true ->
  cache p !! config_key md5_hexdigest p = Some (b :: image, ts) ->
  (t1 - ts <= inject_Z (cache_expire p))%Q ->
  status_command log10 md5_hexdigest png_encode p event h res t1 t2 t3
  = (p, [chain_result_image (b :: image)]).
Proof.
  intros Himp Hen Hk Hage. rewrite status_command_authorized by assumption.
  cbv zeta. now rewrite (get_cached_image_fresh p _ (b :: image) ts t1).
Qed.

(** A fresh, non-empty cached image answers the request whatever the host
    does: nothing is collected or rendered and the plugin is unchanged. *)
Theorem status_command_cache_hit (p : StatusPlugin) (event : AstrMessageEvent)
    (h : host) (res : resources) (t1 t2 t3 ts : Q) (b : Byte.byte) (image : bytes) :
  modules_imported p = true ->
  cache_enabled p = true ->
  cache p !! config_key md5_hexdigest p = Some (b :: image, ts) ->
  (t1 - ts <= inject_Z (cache_expire p))%Q ->
  status_command log10 md5_hexdigest png_encode p event h res t1 t2 t3
  = (p, [chain_result_image (b :: image)]).
Proof. exact (cache_hit_answers p event h res t1 t2 t3 ts b image). Qed.

(** After a request that rendered a non-empty image, a request made
    within the TTL of the stored entry answers with that same image, even
    on a host whose queries now fail. *)
Theorem status_command_store_then_hit (p : StatusPlugin)
    (event event' : AstrMessageEvent) (h h' : host) (res res' : resources)
    (t1 t2 t3 t1' t2' t3' : Q) (b : Byte.byte) (image : bytes) :
  modules_imported p = true ->
  cache_enabled p = true ->
  truthy (snd (get_cached_image p (config_key md5_hexdigest p) t1)) = None ->
  render_image log10 png_encode p h res = Ok (b :: image) ->
  (t3 - t2 <= inject_Z (cache_expire p))%Q ->
  (t1' - t2 <= inject_Z (cache_expire p))%Q ->
  let first := status_command log10 md5_hexdigest png_encode p event h res t1 t2 t3 in
  snd first = [chain_result_image (b :: image)] /\
  snd (status_command log10 md5_hexdigest png_encode (fst first) event' h' res'
         t1' t2' t3')
  = [chain_result_image (b :: image)].
Proof.
  intros Himp Hen Hmiss Hrender Hsweep Hage first. subst first.
  rewrite status_command_authorized by assumption. cbv zeta.
  rewrite Hmiss.
  set (looked := get_cached_image p (config_key md5_hexdigest p) t1).
  assert (Hl : fst looked = p \/
               fst looked = set_cache p (delete (config_key md5_hexdigest p) (cache p))).
  { subst looked. unfold get_cached_image. rewrite Hen. simpl.
    destruct (cache p !! config_key md5_hexdigest p) as [[v ts]|]; [|now left].
    destruct (Qgtb _ _); [now right | now left]. }
  assert (Hr : render_image log10 png_encode (fst looked) h res = Ok (b :: image)).
  { destruct Hl as [-> | ->]; [assumption|]. now rewrite render_image_set_cache. }
  rewrite Hr. simpl fst. simpl snd. split; [reflexivity|].
  set (stored := clean_expired_cache
                   (cache_image (fst looked) (config_key md5_hexdigest p) (b :: image) t2) t3).
  assert (Hcfg : modules_imported stored = true /\ cache_enabled stored = true /\
                 cache_expire stored = cache_expire p /\
                 config_key md5_hexdigest stored = config_key md5_hexdigest p /\
                 cache stored !! config_key md5_hexdigest p = Some (b :: image, t2)).
  { subst stored. unfold cache_image.
    destruct Hl as [-> | ->]; simpl; rewrite Hen; simpl;
      (repeat split; try assumption; try reflexivity;
       apply map_lookup_filter_Some; split;
       [apply lookup_insert_eq | simpl; now apply Qgtb_le]). }
  destruct Hcfg as (H1 & H2 & H3 & H4 & H5).
  rewrite (cache_hit_answers stored event' h' res' t1' t2' t3' t2 b image);
    try assumption; try reflexivity.
  - now rewrite H4.
  - now rewrite H3.
Qed.

End CacheHit.

Lemma status_command_cache_hit_witness :
  main.status_command spec.coarse_log10 (fun s => s) (fun _ => spec.sample_image)
    (main.cache_image spec.sample_plugin
       (spec.config_key (fun s => s) spec.sample_plugin) spec.sample_image 1000)
    {| main.sender_id := "u" |} spec.broken_host spec.sample_resources
    1100 1101 1102
  = (main.cache_image spec.sample_plugin
       (spec.config_key (fun s => s) spec.sample_plugin) spec.sample_image 1000,
     [main.chain_result_image spec.sample_image]).
Proof.
  apply (status_command_cache_hit spec.coarse_log10 (fun s => s)
           (fun _ => spec.sample_image) _ _ _ _ 1100 1101 1102 1000).
  - reflexivity.
  - reflexivity.
  - vm_compute. reflexivity.
  - discriminate.
Defined.

Lemma status_command_store_then_hit_witness :
  snd (main.status_command spec.coarse_log10 (fun s => s) (fun _ => spec.sample_image)
         (fst (main.status_command spec.coarse_log10 (fun s => s)
                 (fun _ => spec.sample_image) spec.sample_plugin
                 {| main.sender_id := "u" |}
                 (spec.sample_host (Py.Raise Py.PermissionError) (Py.Ok spec.sample_disk))
                 spec.sample_resources 1000 1001 1002))
         {| main.sender_id := "v" |} spec.broken_host spec.sample_resources
         1200 1201 1202)
  = [main.chain_result_image spec.sample_image].
Proof.
  apply (status_command_store_then_hit spec.coarse_log10 (fun s => s)
           (fun _ => spec.sample_image) spec.sample_plugin
           {| main.sender_id := "u" |} {| main.sender_id := "v" |}
           (spec.sample_host (Py.Raise Py.PermissionError) (Py.Ok spec.sample_disk))
           spec.broken_host spec.sample_resources spec.sample_resources
           1000 1001 1002 1200 1201 1202).
  - reflexivity.
  - reflexivity.
  - reflexivity.
  - vm_compute. reflexivity.
  - discriminate.
  - discriminate.
Defined.

(** ** What the commands keep *)

Section CommandInvariants.
Import Py system_info kawaii_renderer main spec.

Variable log10 : Q -> Q.
Variable md5_hexdigest : string -> string.
Variable png_encode : canvas -> bytes.

Lemma same_config_refl (p : StatusPlugin) : same_config p p.
Proof. repeat split. Qed.

Lemma same_config_set_cache (p : StatusPlugin) (c : gmap string (bytes * Q)) :
  same_config (set_cache p c) p.
Proof. repeat split. Qed.

Lemma same_config_trans (p q r : StatusPlugin) :
  same_config p q -> same_config q r -> same_config p r.
Proof.
  unfold same_config. intros (?&?&?&?&?&?&?) (?&?&?&?&?&?&?).
  repeat split; congruence.
Qed.

Lemma same_config_key (p q : StatusPlugin) :
  same_config p q -> config_key md5_hexdigest p = config_key md5_hexdigest q.
Proof.
  intros (_&_&_&_&Ht&Hn&Hc). unfold config_key. now rewrite Ht, Hn, Hc.
Qed.

Lemma get_cached_image_shrinks (p : StatusPlugin) (k : string) (now : Q) :
  same_config (fst (get_cached_image p k now)) p /\
  forall i e, cache (fst (get_cached_image p k now)) !! i = Some e ->
              cache p !! i = Some e.
Proof.
  unfold get_cached_image.
  destruct (cache_enabled p); simpl; [|split; [apply same_config_refl | auto]].
  destruct (cache p !! k) as [[v ts]|] eqn:E;
    [|split; [apply same_config_refl | auto]].
  destruct (Qgtb _ _); simpl; [|split; [apply same_config_refl | auto]].
  split; [apply same_config_set_cache|].
  intros i e H. apply lookup_delete_Some in H. now destruct H.
Qed.

Lemma clean_expired_cache_shrinks (p : StatusPlugin) (now : Q) :
  same_config (clean_expired_cache p now) p /\
  forall i e, cache (clean_expired_cache p now) !! i = Some e ->
              cache p !! i = Some e.
Proof.
  split; [apply same_config_set_cache|].
  intros i e H. now apply clean_expired_cache_lookup_Some in H.
Qed.

Lemma cache_image_grows_by_key (p : StatusPlugin) (k : string) (v : bytes) (now : Q) :
  same_config (cache_image p k v now) p /\
  forall i e, cache (cache_image p k v now) !! i = Some e ->
              i = k \/ cache p !! i = Some e.
Proof.
  unfold cache_image. destruct (cache_enabled p); simpl.
  - split; [apply same_config_set_cache|].
    intros i e H. apply lookup_insert_Some in H.
    destruct H as [[-> _]|[_ H]]; auto.
  - split; [apply same_config_refl | auto].
Qed.

(** One command: the configuration stays, and an entry of the cache
    afterwards was there before or sits under the plugin's own key. *)
Lemma step_entries (p : StatusPlugin) (c : command) :
  same_config (step log10 md5_hexdigest png_encode p c) p /\
  forall i e,
    cache (step log10 md5_hexdigest png_encode p c) !! i = Some e ->
    i = config_key md5_hexdigest p \/ cache p !! i = Some e.
Proof.
  destruct c as [event h res t1 t2 t3|event|]; simpl.
  - destruct (modules_imported p) eqn:Himp.
    + rewrite status_command_authorized by assumption. cbv zeta.
      destruct (get_cached_image_shrinks p (config_key md5_hexdigest p) t1)
        as [Hc Hs].
      destruct (truthy _); simpl; [split; [assumption | intros; right; eauto]|].
      destruct (render_image _ _ _ _ _); simpl;
        [|split; [assumption | intros; right; eauto]].
      match goal with
      | |- context [cache_image ?q ?k ?v ?t] =>
          destruct (cache_image_grows_by_key q k v t) as [Hc2 Hg];
          destruct (clean_expired_cache_shrinks (cache_image q k v t) t3)
            as [Hc3 Hs3]
      end.
      split; [eauto using same_config_trans|].
      intros i e H. apply Hs3, Hg in H. destruct H as [->|H]; [now left|].
      right. eauto.
    + unfold status_command. rewrite Himp. simpl.
      split; [apply same_config_refl | auto].
  - rewrite clear_cache_command_eq. simpl.
    split; [apply same_config_set_cache|]. intros i e H.
    rewrite lookup_empty in H. discriminate.
  - unfold terminate. split; [apply same_config_set_cache|]. intros i e H.
    simpl in H. rewrite lookup_empty in H. discriminate.
Qed.

Lemma run_entries (p : StatusPlugin) (cs : list command) :
  same_config (run log10 md5_hexdigest png_encode p cs) p /\
  forall i e,
    cache (run log10 md5_hexdigest png_encode p cs) !! i = Some e ->
    i = config_key md5_hexdigest p \/ cache p !! i = Some e.
Proof.
  unfold run. revert p. induction cs as [|c cs IH]; intros p; simpl.
  - split; [apply same_config_refl | auto].
  - destruct (IH (step log10 md5_hexdigest png_encode p c)) as [Hc Hs].
    destruct (step_entries p c) as [Hc1 Hs1].
    split; [eauto using same_config_trans|].
    intros i e H. apply Hs in H. destruct H as [->|H].
    + left. now apply same_config_key.
    + now apply Hs1.
Qed.

Lemma run_keeps_one_image (imported : bool) (config : AstrBotConfig)
    (cs : list command) :
  let p0 := __init__ imported config in
  let p := run log10 md5_hexdigest png_encode p0 cs in
  same_config p p0 /\
  (forall k e, cache p !! k = Some e -> k = config_key md5_hexdigest p0) /\
  (size (cache p) <= 1)%nat.
Proof.
  intros p0 p. destruct (run_entries p0 cs) as [Hc Hs]. fold p in Hc, Hs.
  assert (Hk : forall k e, cache p !! k = Some e -> k = config_key md5_hexdigest p0).
  { intros k e H. apply Hs in H. destruct H as [H|H]; [assumption|].
    unfold p0 in H. simpl in H. rewrite lookup_empty in H. discriminate. }
  split; [assumption|]. split; [assumption|].
  destruct (cache p !! config_key md5_hexdigest p0) as [e|] eqn:E.
  - replace (cache p) with ({[config_key md5_hexdigest p0 := e]} : gmap string (bytes * Q)).
    + now rewrite map_size_singleton.
    + apply map_eq. intros i.
      destruct (decide (i = config_key md5_hexdigest p0)) as [->|Hne].
      * now rewrite lookup_singleton_eq.
      * rewrite lookup_singleton_ne by congruence.
        destruct (cache p !! i) as [e'|] eqn:E'; [|reflexivity].
        apply Hk in E'. contradiction.
  - replace (cache p) with (∅ : gmap string (bytes * Q)).
    + rewrite map_size_empty. lia.
    + symmetry. apply map_empty. intros i.
      destruct (cache p !! i) as [e'|] eqn:E'; [|reflexivity].
      pose proof (Hk _ _ E') as ->. congruence.
Qed.

(** From its creation on, whatever commands arrive, the plugin keeps its
    configuration and its cache holds at most one image, the one under
    the key of that configuration. *)
Theorem cache_holds_at_most_one_image (imported : bool) (config : AstrBotConfig)
    (cs : list command) :
  let p0 := __init__ imported config in
  let p := run log10 md5_hexdigest png_encode p0 cs in
  same_config p p0 /\
  (forall k e, cache p !! k = Some e -> k = config_key md5_hexdigest p0) /\
  (size (cache p) <= 1)%nat.
Proof. exact (run_keeps_one_image imported config cs). Qed.

End CommandInvariants.

(** ** Replies of the commands *)

Section Replies.
Import Py system_info kawaii_renderer main spec.

Variable log10 : Q -> Q.
Variable md5_hexdigest : string -> string.
Variable png_encode : canvas -> bytes.

(** A plugin whose modules failed to import, or whose collection or
    rendering raises, answers with one text message and stores nothing:
    every cache entry left was there before. *)
Theorem status_command_error_paths (p : StatusPlugin) (event : AstrMessageEvent)
    (h : host) (res : resources) (t1 t2 t3 : Q) :
  let out := status_command log10 md5_hexdigest png_encode p event h res t1 t2 t3 in
  (modules_imported p = false ->
     out = (p, [plain_result "❌ 插件依赖未正确安装，请检查依赖包"])) /\
  (modules_imported p = true ->
     truthy (snd (get_cached_image p (config_key md5_hexdigest p) t1)) = None ->
     raises (render_image log10 png_encode p h res) = true ->
     snd out = [plain_result "❌ 生成状态图片时出现错误"] /\
     forall i e, cache (fst out) !! i = Some e -> cache p !! i = Some e).
Proof.
  intros out. subst out. split.
  - intros Himp. unfold status_command. now rewrite Himp.
  - intros Himp Hmiss Hraise.
    rewrite status_command_authorized by assumption. cbv zeta. rewrite Hmiss.
    destruct (get_cached_image_shrinks p (config_key md5_hexdigest p) t1)
      as [Hc Hs].
    assert (E : render_image log10 png_encode
                  (fst (get_cached_image p (config_key md5_hexdigest p) t1)) h res
                = render_image log10 png_encode p h res).
    { unfold render_image, snapshot_to_render. destruct Hc as (_&_&_&_&_&Hn&_).
      now rewrite Hn. }
    rewrite E. destruct (render_image log10 png_encode p h res); [discriminate|].
    simpl. split; [reflexivity | exact Hs].
Qed.

Lemma is_authorized_always (p : StatusPlugin) (event : AstrMessageEvent) :
  is_authorized p event = true.
Proof. unfold is_authorized. now destruct (only_superuser p). Qed.

(** No caller is ever refused: whatever [only_superuser] is, none of the
    three commands answers with a permission message. *)
Theorem no_caller_is_refused (p : StatusPlugin) (event : AstrMessageEvent)
    (h : host) (res : resources) (t1 t2 t3 : Q) (r : reply) :
  In r (snd (status_command log10 md5_hexdigest png_encode p event h res t1 t2 t3))
  \/ In r (snd (clear_cache_command p event))
  \/ In r (snd (status_config_command p event)) ->
  ~ In r refusals.
Proof.
  intros H Hr.
  assert (Hcases : r = plain_result "❌ 权限不足，仅管理员可查看系统状态"
                   \/ r = plain_result "❌ 权限不足").
  { simpl in Hr. intuition auto. }
  clear Hr. destruct H as [H|[H|H]].
  - destruct (modules_imported p) eqn:Himp.
    + rewrite status_command_authorized in H by assumption. cbv zeta in H.
      destruct (truthy _); simpl in H;
        [destruct H as [<-|[]]; destruct Hcases; discriminate|].
      destruct (render_image _ _ _ _ _); simpl in H;
        destruct H as [<-|[]]; destruct Hcases; discriminate.
    + unfold status_command in H. rewrite Himp in H. simpl in H.
      destruct H as [<-|[]]; destruct Hcases; discriminate.
  - rewrite clear_cache_command_eq in H. simpl in H.
    destruct H as [<-|[]]; destruct Hcases; discriminate.
  - unfold status_config_command in H. rewrite is_authorized_always in H.
    simpl in H. destruct H as [<-|[]]; destruct Hcases; discriminate.
Qed.

(** The configuration report shows the TTL in minutes as configured (5
    when unset), whatever commands ran before, and an image count of 0
    or 1; it leaves the plugin as it is. *)
Theorem status_config_reports_configuration
    (imported : bool) (config : AstrBotConfig) (cs : list command)
    (event : AstrMessageEvent) :
  let p := run log10 md5_hexdigest png_encode (__init__ imported config) cs in
  status_config_command p event = (p, [plain_result (config_text p)]) /\
  nth 3 (config_lines p) ""
  = "⏰ 缓存过期: " ++ str_int (default 5 (cfg_cache_expire_minutes config)) ++ " 分钟" /\
  (nth 7 (config_lines p) "" = "🗂️ 缓存数量: 0" \/
   nth 7 (config_lines p) "" = "🗂️ 缓存数量: 1").
Proof.
  intros p.
  destruct (run_keeps_one_image log10 md5_hexdigest png_encode
              imported config cs) as (Hc & _ & Hsize).
  fold p in Hc, Hsize. split; [|split].
  - unfold status_config_command. now rewrite is_authorized_always.
  - simpl nth. destruct Hc as (_&_&_&He&_). rewrite He. simpl cache_expire.
    now rewrite Z.div_mul by lia.
  - simpl nth. destruct (size (cache p)) as [|[|n]]; [now left | now right | lia].
Qed.

End Replies.

Lemma no_caller_is_refused_witness :
  let p := main.__init__ true
             {| main.cfg_only_superuser := Some true;
                main.cfg_cache_enabled := None;
                main.cfg_cache_expire_minutes := None;
                main.cfg_theme := None; main.cfg_show_network := None;
                main.cfg_show_process_count := None |} in
  let r := main.plain_result ("✅ 已清理 " ++ Py.str_int 0 ++ " 个缓存图片") in
  In r (snd (main.clear_cache_command p {| main.sender_id := "guest" |})) /\
  (In r spec.refusals -> False).
Proof.
  cbv zeta. split; [left; reflexivity|].
  apply (no_caller_is_refused spec.coarse_log10 (fun s => s)
           (fun _ => spec.sample_image)
           (main.__init__ true
              {| main.cfg_only_superuser := Some true;
                 main.cfg_cache_enabled := None;
                 main.cfg_cache_expire_minutes := None;
                 main.cfg_theme := None; main.cfg_show_network := None;
                 main.cfg_show_process_count := None |})
           {| main.sender_id := "guest" |} spec.broken_host
           spec.sample_resources 0 0 0).
  right. left. left. reflexivity.
Defined.

Lemma status_command_error_paths_witness :
  main.status_command spec.coarse_log10 (fun s => s) (fun _ => spec.sample_image)
    (main.__init__ false spec.default_config) {| main.sender_id := "u" |}
    spec.broken_host spec.sample_resources 0 0 0
  = (main.__init__ false spec.default_config,
     [main.plain_result "❌ 插件依赖未正确安装，请检查依赖包"]).
Proof.
  apply (proj1 (status_command_error_paths spec.coarse_log10 (fun s => s)
                  (fun _ => spec.sample_image)
                  (main.__init__ false spec.default_config)
                  {| main.sender_id := "u" |}
                  spec.broken_host spec.sample_resources 0 0 0)).
  reflexivity.
Defined.

(** ** Rounding to gigabytes *)

Section Rounding.
Import Py system_info kawaii_renderer main spec.

Lemma round_half_even_near (q : Q) :
  (inject_Z (round_half_even q) - (1 # 2) <= q <= inject_Z (round_half_even q) + (1 # 2))%Q.
Proof.
  unfold round_half_even.
  pose proof (Qfloor_le q) as Hlo. pose proof (Qlt_floor q) as Hhi.
  rewrite inject_Z_plus in Hhi. change (inject_Z 1) with 1%Q in Hhi.
  destruct (Qcompare_spec (q - inject_Z (Qfloor q)) (1 # 2)) as [E|E|E].
  - destruct (Z.even (Qfloor q)).
    + split; lra.
    + rewrite inject_Z_plus. change (inject_Z 1) with 1%Q. split; lra.
  - split; lra.
  - rewrite inject_Z_plus. change (inject_Z 1) with 1%Q. split; lra.
Qed.

Lemma round_half_even_mono (q1 q2 : Q) :
  (q1 <= q2)%Q -> (round_half_even q1 <= round_half_even q2)%Z.
Proof.
  intros Hle. pose proof (Qfloor_resp_le _ _ Hle) as Hf.
  destruct (Z.eq_dec (Qfloor q1) (Qfloor q2)) as [Ef|Nf].
  - unfold round_half_even. rewrite <- Ef.
    destruct (Qcompare_spec (q1 - inject_Z (Qfloor q1)) (1 # 2)) as [E1|E1|E1];
      destruct (Qcompare_spec (q2 - inject_Z (Qfloor q1)) (1 # 2)) as [E2|E2|E2];
      try destruct (Z.even (Qfloor q1)); try lia; exfalso; lra.
  - assert (Hlt : (Qfloor q1 + 1 <= Qfloor q2)%Z) by lia.
    assert (H1 : (round_half_even q1 <= Qfloor q1 + 1)%Z).
    { unfold round_half_even. destruct (Qcompare _ _); try destruct (Z.even _); lia. }
    assert (H2 : (Qfloor q2 <= round_half_even q2)%Z).
    { unfold round_half_even. destruct (Qcompare _ _); try destruct (Z.even _); lia. }
    lia.
Qed.

Lemma round_half_even_Z (z : Z) : round_half_even (inject_Z z) = z.
Proof.
  unfold round_half_even. rewrite Qfloor_Z.
  destruct (Qcompare_spec (inject_Z z - inject_Z z) (1 # 2)) as [E|E|E];
    try reflexivity; exfalso; lra.
Qed.

Lemma pow10_pos (n : nat) : (0 < inject_Z (pow10 n))%Q.
Proof.
  change 0%Q with (inject_Z 0). rewrite <- Zlt_Qlt.
  unfold pow10. apply Z.pow_pos_nonneg; lia.
Qed.

Lemma round_mono (x y : Q) (n : nat) : (x <= y)%Q -> (round x n <= round y n)%Q.
Proof.
  intros H. unfold round. pose proof (pow10_pos n) as Hp.
  apply Qmult_le_compat_r; [|apply Qlt_le_weak, Qinv_lt_0_compat, Hp].
  rewrite <- Zle_Qle. apply round_half_even_mono.
  apply Qmult_le_compat_r; [assumption | now apply Qlt_le_weak].
Qed.

Lemma round_near (x : Q) (n : nat) :
  (round x n - (1 # 2) / inject_Z (pow10 n) <= x
   <= round x n + (1 # 2) / inject_Z (pow10 n))%Q.
Proof.
  unfold round. pose proof (pow10_pos n) as Hp.
  destruct (round_half_even_near (x * inject_Z (pow10 n))) as [Hlo Hhi].
  set (r := inject_Z (round_half_even (x * inject_Z (pow10 n)))) in *.
  set (t := inject_Z (pow10 n)) in *.
  assert (Ht : ~ (t == 0)%Q) by (intros E; rewrite E in Hp; discriminate Hp).
  split.
  - apply Qle_shift_div_r in Hlo; [|assumption].
    assert (E : (r / t - (1 # 2) / t == (r - (1 # 2)) / t)%Q) by (field; assumption).
    rewrite E. exact Hlo.
  - apply Qle_shift_div_l in Hhi; [|assumption].
    assert (E : (r / t + (1 # 2) / t == (r + (1 # 2)) / t)%Q) by (field; assumption).
    rewrite E. exact Hhi.
Qed.

Lemma bytes_to_gb_facts :
  (forall b, (bytes_to_gb b - 0.005 <= inject_Z b / inject_Z (1024 ^ 3)
              <= bytes_to_gb b + 0.005)%Q) /\
  (forall b1 b2, (b1 <= b2)%Z -> (bytes_to_gb b1 <= bytes_to_gb b2)%Q) /\
  (bytes_to_gb 0 == 0)%Q /\
  (forall b, (0 <= b)%Z -> (0 <= bytes_to_gb b)%Q).
Proof.
  assert (Hmono : forall b1 b2, (b1 <= b2)%Z -> (bytes_to_gb b1 <= bytes_to_gb b2)%Q).
  { intros b1 b2 H. unfold bytes_to_gb. apply round_mono.
    apply Qmult_le_compat_r; [now rewrite <- Zle_Qle | discriminate]. }
  split; [|split; [exact Hmono | split; [reflexivity|]]].
  - intros b. unfold bytes_to_gb.
    pose proof (round_near (inject_Z b / inject_Z (1024 ^ 3)) 2) as H.
    assert (E : ((1 # 2) / inject_Z (pow10 2) == 0.005)%Q) by reflexivity.
    rewrite E in H. exact H.
  - intros b Hb. apply (Qle_trans _ (bytes_to_gb 0)); [discriminate|].
    now apply Hmono.
Qed.

(** [bytes_to_gb] stays within 0.005 GB of the exact quotient, never
    reverses the order of two byte counts (so used <= total survives the
    rounding), maps 0 to 0 and stays non-negative. *)
Theorem bytes_to_gb_rounding :
  (forall b, (bytes_to_gb b - 0.005 <= inject_Z b / inject_Z (1024 ^ 3)
              <= bytes_to_gb b + 0.005)%Q) /\
  (forall b1 b2, (b1 <= b2)%Z -> (bytes_to_gb b1 <= bytes_to_gb b2)%Q) /\
  (bytes_to_gb 0 == 0)%Q /\
  (forall b, (0 <= b)%Z -> (0 <= bytes_to_gb b)%Q).
Proof. exact bytes_to_gb_facts. Qed.

Lemma bytes_to_gb_rounding_witness :
  (bytes_to_gb 4294967296 <= bytes_to_gb 17179869184)%Q.
Proof. apply (proj1 (proj2 bytes_to_gb_rounding)). lia. Defined.

End Rounding.

(** ** Edge cases of the collector *)

Section CollectorEdges.
Import Py system_info kawaii_renderer main spec.



(** [is_docker_environment] answers True as soon as /.dockerenv exists,
    without reading any file; it never raises an OSError: a read that
    fails with one gives False, even when the file not yet read would
    have mentioned docker; with neither marker file it answers False. *)
Theorem is_docker_environment_cases (h : host) :
  (dockerenv_exists h = true -> is_docker_environment h = Ok true) /\
  (forall e, is_docker_environment h = Raise e -> is_OSError e = false) /\
  (forall e, dockerenv_exists h = false ->
     proc_1_cgroup h = Some (Raise e) -> is_OSError e = true ->
     is_docker_environment h = Ok false) /\
  (dockerenv_exists h = false -> proc_1_cgroup h = None ->
     proc_self_mountinfo h = None -> is_docker_environment h = Ok false) /\
  (forall c m, dockerenv_exists h = false ->
     proc_1_cgroup h = Some (Ok c) -> proc_self_mountinfo h = Some (Ok m) ->
     is_docker_environment h
     = Ok (contains "docker" c || contains "containerd" c || contains "docker" m)).
Proof.
  unfold is_docker_environment. bind_simpl.
  split; [intros ->; reflexivity|].
  split; [|split; [|split]].
  - intros e.
    destruct (dockerenv_exists h); [discriminate|].
    destruct (proc_1_cgroup h) as [[c|e1]|], (proc_self_mountinfo h) as [[m|e2]|];
      try destruct (contains "docker" c || contains "containerd" c);
      try destruct (contains "docker" m);
      try discriminate;
      try (destruct (is_OSError e1) eqn:E1; [discriminate | now intros [= <-]]);
      try (destruct (is_OSError e2) eqn:E2; [discriminate | now intros [= <-]]).
  - intros e -> -> He. now rewrite He.
  - intros -> -> ->. reflexivity.
  - intros c m -> -> ->.
    destruct (contains "docker" c || contains "containerd" c); [reflexivity|].
    now destruct (contains "docker" m).
Qed.

Lemma is_docker_environment_cases_witness :
  is_docker_environment cgroup_unreadable_host = Ok false.
Proof.
  apply (proj1 (proj2 (proj2 (is_docker_environment_cases cgroup_unreadable_host)))
           PermissionError); reflexivity.
Defined.

(** The CPU temperature is the first reading of the first sensor, in the
    order reported, whose name mentions "cpu" or "core" and which has a
    reading; there is none exactly when every such sensor is empty. *)
Theorem first_cpu_temperature_first_match (temps : list (string * list Q)) :
  match first_cpu_temperature temps with
  | Some t =>
      exists before name rest after,
        temps = (before ++ (name, t :: rest) :: after)%list /\
        is_cpu_sensor name = true /\
        forall n es, In (n, es) before -> is_cpu_sensor n = false \/ es = []
  | None =>
      forall n es, In (n, es) temps -> is_cpu_sensor n = true -> es = []
  end.
Proof.
  induction temps as [|[name entries] temps IH]; simpl.
  - intros n es [].
  - fold (is_cpu_sensor name). destruct (is_cpu_sensor name) eqn:Hs.
    + destruct entries as [|t rest].
      * destruct (first_cpu_temperature temps) as [t|].
        -- destruct IH as (before & name' & rest & after & -> & Hn & Hb).
           exists ((name, []) :: before), name', rest, after.
           split; [reflexivity|]. split; [assumption|].
           intros n es [[= <- <-]|Hin]; [now right | eauto].
        -- intros n es [[= <- <-]|Hin] Hc; [reflexivity | eauto].
      * exists [], name, rest, temps. split; [reflexivity|].
        split; [assumption|]. intros n es [].
    + destruct (first_cpu_temperature temps) as [t|].
      * destruct IH as (before & name' & rest & after & -> & Hn & Hb).
        exists ((name, entries) :: before), name', rest, after.
        split; [reflexivity|]. split; [assumption|].
        intros n es [[= <- <-]|Hin]; [now left | eauto].
      * intros n es [[= <- <-]|Hin] Hc; [congruence | eauto].
Qed.

(** The GPU probe is a chain: what pynvml reports wins and GPUtil is not
    asked; an ImportError of pynvml hands over to GPUtil, whose first
    device only is reported; an empty device list or a second ImportError
    gives "Unknown GPU"; any other exception of either backend gives
    "No GPU"; a failing temperature read only blanks the temperature. *)
Theorem get_gpu_info_fallback_chain (h : host) :
  (forall info, pynvml_gpu (pynvml h) = Ok info -> get_gpu_info h = Ok info) /\
  (forall e, pynvml_gpu (pynvml h) = Raise e -> is_ImportError e = false ->
     get_gpu_info h = Ok no_gpu) /\
  (forall e, pynvml_gpu (pynvml h) = Raise e -> is_ImportError e = true ->
     (forall e', gputil_import (GPUtil h) = Raise e' ->
        get_gpu_info h = Ok (if is_ImportError e' then unknown_gpu else no_gpu)) /\
     (forall e', gputil_import (GPUtil h) = Ok tt -> getGPUs (GPUtil h) = Raise e' ->
        get_gpu_info h = Ok (if is_ImportError e' then unknown_gpu else no_gpu)) /\
     (gputil_import (GPUtil h) = Ok tt -> getGPUs (GPUtil h) = Ok [] ->
        get_gpu_info h = Ok unknown_gpu) /\
     (forall d rest, gputil_import (GPUtil h) = Ok tt ->
        getGPUs (GPUtil h) = Ok (d :: rest) ->
        get_gpu_info h = Ok (of_GPUtil d))) /\
  (forall name usage mem e,
     nvml_import (pynvml h) = Ok tt -> nvmlInit (pynvml h) = Ok tt ->
     nvmlDeviceGetHandleByIndex (pynvml h) = Ok tt ->
     nvmlDeviceGetName_decoded (pynvml h) = Ok name ->
     nvmlDeviceGetUtilizationRates_gpu (pynvml h) = Ok usage ->
     nvmlDeviceGetMemoryInfo (pynvml h) = Ok mem ->
     nvmlDeviceGetTemperature (pynvml h) = Raise e ->
     get_gpu_info h
     = Ok {| gpu_name := name; gpu_usage := inject_Z usage;
             gpu_memory_used := bytes_to_gb (snd mem);
             gpu_memory_total := bytes_to_gb (fst mem);
             gpu_temperature := None |}).
Proof.
  split; [|split; [|split]].
  - intros info H. unfold get_gpu_info. now rewrite H.
  - intros e H He. unfold get_gpu_info. now rewrite H, He.
  - intros e H He. unfold get_gpu_info, GPUtil_gpu_info. rewrite H, He.
    bind_simpl. split; [|split; [|split]].
    + intros e' ->. now destruct (is_ImportError e').
    + intros e' -> ->. now destruct (is_ImportError e').
    + intros -> ->. reflexivity.
    + intros d rest -> ->. reflexivity.
  - intros name usage mem e H1 H2 H3 H4 H5 H6 H7.
    unfold get_gpu_info, pynvml_gpu. rewrite H1, H2, H3, H4, H5, H6, H7.
    reflexivity.
Qed.

Lemma get_gpu_info_fallback_chain_witness :
  get_gpu_info (sample_host (Raise PermissionError) (Ok sample_disk))
  = Ok unknown_gpu.
Proof.
  apply (proj1 (proj1 (proj2 (proj2 (get_gpu_info_fallback_chain
           (sample_host (Raise PermissionError) (Ok sample_disk)))))
           ModuleNotFoundError eq_refl eq_refl) ModuleNotFoundError).
  reflexivity.
Defined.

End CollectorEdges.

(** ** When the renderer raises *)

Section RenderRaises.
Import Py system_info kawaii_renderer main spec.

Variable log10 : Q -> Q.

Lemma only_zd_ok {A : Type} (a : A) : only_zero_division (Ok a).
Proof. intros e H. discriminate H. Qed.

Lemma only_zd_truediv (x y : Q) : only_zero_division (truediv x y).
Proof.
  intros e. unfold truediv. destruct (Qeq_bool y 0); [|discriminate].
  now intros [= <-].
Qed.

Lemma only_zd_bind {A B : Type} (r : result A) (k : A -> result B) :
  only_zero_division r -> (forall a, only_zero_division (k a)) ->
  only_zero_division (r ≫= k).
Proof.
  intros Hr Hk e. unfold mbind, result_bind, bind.
  destruct r as [a|e0]; [apply Hk|]. intros [= <-]. now apply Hr.
Qed.

Lemma only_zd_when_some {A : Type} (o : option A)
    (block : A -> result (list draw_call)) :
  (forall a, only_zero_division (block a)) ->
  only_zero_division (when_some o block).
Proof. intros H. destruct o; [apply H | apply only_zd_ok]. Qed.

Ltac only_zd :=
  repeat first
    [ apply only_zd_ok
    | apply only_zd_truediv
    | apply only_zd_when_some; intros ?
    | apply only_zd_bind; [|intros ?]
    | match goal with
      | |- only_zero_division (if ?b then _ else _) => destruct b
      end ].

Lemma only_zd_arcs (c : CPUInfo) (m : MemoryInfo) (sw : option SwapInfo)
    (d : DiskInfo) (g : option GPUInfo) (n : option NetworkInfo) :
  only_zero_division (_draw_progress_arcs log10 c m sw d g n).
Proof.
  unfold _draw_progress_arcs, ram_usage_angle, ram_percent, swap_usage_angle,
    swap_percent, disk_usage_angle, disk_percent, gpu_usage_angle, gpu_percent,
    ring_angle, ring_percentage, download_share, upload_share, share_percentage.
  cbv zeta. only_zd.
Qed.

Lemma render_raise_cases (res : resources) (st : StatusInfo) (e : exn) :
  render log10 res st = Raise e ->
  (e = KeyError /\ required_present st = false)
  \/ (e = ZeroDivisionError /\ required_present st = true).
Proof.
  unfold render, getitem, required_present. cbv zeta. bind_simpl.
  destruct (st_cpu st) as [c|]; [|intros [= <-]; left; auto].
  destruct (st_memory st) as [m|]; [|intros [= <-]; left; auto].
  destruct (st_disk st) as [d|]; [|intros [= <-]; left; auto].
  destruct (st_system st) as [sy|]; [|intros [= <-]; left; auto].
  destruct (_draw_progress_arcs log10 c m (st_swap st) d (st_gpu st)
              (st_network st)) as [arcs|e0] eqn:E; [discriminate|].
  intros [= <-]. right. split; [|reflexivity].
  exact (only_zd_arcs _ _ _ _ _ _ _ E).
Qed.

Lemma render_missing_key (res : resources) (st : StatusInfo) :
  required_present st = false -> render log10 res st = Raise KeyError.
Proof.
  unfold render, getitem, required_present. cbv zeta. bind_simpl.
  destruct (st_cpu st); [|reflexivity].
  destruct (st_memory st); [|reflexivity].
  destruct (st_disk st); [|reflexivity].
  destruct (st_system st); [discriminate | reflexivity].
Qed.

End RenderRaises.

Lemma render_exceptions (log10 : Q -> Q)
    (res : kawaii_renderer.resources) (st : system_info.StatusInfo) :
  (kawaii_renderer.render log10 res st = Py.Raise Py.KeyError
   <-> spec.required_present st = false) /\
  (forall e, kawaii_renderer.render log10 res st = Py.Raise e ->
     e = Py.KeyError \/ e = Py.ZeroDivisionError).
Proof.
  split; [split|].
  - intros H. apply render_raise_cases in H as [[_ H]|[H _]];
      [assumption | discriminate H].
  - apply render_missing_key.
  - intros e H. apply render_raise_cases in H as [[H _]|[H _]]; auto.
Qed.



(** ** When the renderer returns *)

Section RenderReturns.
Import Py system_info kawaii_renderer main spec.

Variable log10 : Q -> Q.
Hypothesis log10_max_bytes : ~ (log10 (inject_Z (2 ^ 40)) == 0)%Q.

Lemma succeeds_ok {A : Type} (a : A) : succeeds (Ok a).
Proof. now exists a. Qed.

Lemma succeeds_bind {A B : Type} (r : result A) (k : A -> result B) :
  succeeds r -> (forall a, succeeds (k a)) -> succeeds (r ≫= k).
Proof.
  intros [a ->] Hk. unfold mbind, result_bind, bind. apply Hk.
Qed.

Lemma succeeds_truediv (x y : Q) : ~ (y == 0)%Q -> succeeds (truediv x y).
Proof. intros H. rewrite truediv_ok by assumption. apply succeeds_ok. Qed.

Lemma truediv_succeeds_inv (x y : Q) : succeeds (truediv x y) -> ~ (y == 0)%Q.
Proof.
  intros [a H] E. rewrite (truediv_zero x y E) in H. discriminate H.
Qed.

Lemma positive_nonzero (x : Q) : Qgtb x 0 = true -> ~ (x == 0)%Q.
Proof. intros H E. apply Qgtb_gt in H. rewrite E in H. discriminate H. Qed.

Lemma swap_shown_Some (sw : option SwapInfo) (s : SwapInfo) :
  swap_shown sw = Some s -> ~ (swap_total s == 0)%Q.
Proof.
  unfold swap_shown. destruct sw as [s'|]; [|discriminate].
  destruct (Qgtb (swap_total s') 0) eqn:E; [|discriminate].
  intros [= <-]. now apply positive_nonzero.
Qed.

Lemma succeeds_gpu (g : GPUInfo) :
  succeeds (gpu_usage_angle g) /\ succeeds (gpu_percent g).
Proof.
  unfold gpu_usage_angle, gpu_percent.
  destruct (Qgtb (gpu_memory_total g) 0) eqn:E.
  - apply positive_nonzero in E.
    split; (apply succeeds_bind; [now apply succeeds_truediv|]);
      intros; apply succeeds_ok.
  - split; apply succeeds_ok.
Qed.

Lemma succeeds_ring_angle (b : Z) : succeeds (ring_angle log10 b).
Proof.
  unfold ring_angle, ring_percentage.
  apply succeeds_bind; [|intros; apply succeeds_ok].
  destruct (b >? 0)%Z; [|apply succeeds_ok].
  apply succeeds_bind; [|intros; apply succeeds_ok].
  apply succeeds_truediv. exact log10_max_bytes.
Qed.

Lemma succeeds_share (this : Z) (n : NetworkInfo) :
  succeeds (share_percentage this n).
Proof.
  pose proof (share_percentage_never_raises this n) as H.
  destruct (share_percentage this n) as [a|e]; [now exists a | discriminate H].
Qed.

Lemma arcs_succeed (c : CPUInfo) (m : MemoryInfo) (sw : option SwapInfo)
    (d : DiskInfo) (g : option GPUInfo) (n : option NetworkInfo) :
  ~ (mem_total m == 0)%Q -> ~ (disk_total d == 0)%Q ->
  succeeds (_draw_progress_arcs log10 c m sw d g n).
Proof.
  intros Hm Hd. unfold _draw_progress_arcs, when_some.
  destruct (swap_shown sw) as [s|] eqn:Es;
    [apply swap_shown_Some in Es|];
    destruct n as [n|], g as [g|];
    try destruct (succeeds_gpu g) as [G1 G2];
    repeat first
      [ apply succeeds_ok
      | apply succeeds_ring_angle
      | apply succeeds_share
      | assumption
      | apply succeeds_truediv; assumption
      | apply succeeds_bind; [|intros ?] ].
Qed.

Lemma arcs_succeed_inv (c : CPUInfo) (m : MemoryInfo) (sw : option SwapInfo)
    (d : DiskInfo) (g : option GPUInfo) (n : option NetworkInfo) :
  succeeds (_draw_progress_arcs log10 c m sw d g n) ->
  ~ (mem_total m == 0)%Q /\ ~ (disk_total d == 0)%Q.
Proof.
  intros [arcs H]. unfold _draw_progress_arcs in H. bind_simpl.
  destruct (ram_usage_angle m) as [a|] eqn:Em; [|discriminate H].
  destruct (when_some (swap_shown sw) _); [|discriminate H].
  destruct (when_some n _); [|discriminate H].
  destruct (when_some g _); [|discriminate H].
  destruct (disk_usage_angle d) as [a'|] eqn:Ed; [|discriminate H].
  clear H. unfold ram_usage_angle in Em. unfold disk_usage_angle in Ed.
  bind_simpl. split.
  - apply (truediv_succeeds_inv (mem_used m)).
    destruct (truediv (mem_used m) (mem_total m)) as [q|]; [now exists q | discriminate Em].
  - apply (truediv_succeeds_inv (disk_used d)).
    destruct (truediv (disk_used d) (disk_total d)) as [q|]; [now exists q | discriminate Ed].
Qed.

Lemma render_succeeds_iff (res : resources) (st : StatusInfo) :
  succeeds (render log10 res st) <->
  exists c m d sy,
    st_cpu st = Some c /\ st_memory st = Some m /\ st_disk st = Some d /\
    st_system st = Some sy /\
    ~ (mem_total m == 0)%Q /\ ~ (disk_total d == 0)%Q.
Proof.
  split.
  - intros [cv H].
    destruct (render_calls log10 res st cv H)
      as (c & m & d & sy & arcs & Hc & Hm & Hd & Hs & Ha & _).
    exists c, m, d, sy. repeat split; try assumption;
      apply (arcs_succeed_inv c m (st_swap st) d (st_gpu st) (st_network st));
      now exists arcs.
  - intros (c & m & d & sy & Hc & Hm & Hd & Hs & Hmt & Hdt).
    unfold render, getitem. rewrite Hc, Hm, Hd, Hs. cbv zeta. bind_simpl.
    destruct (arcs_succeed c m (st_swap st) d (st_gpu st) (st_network st) Hmt Hdt)
      as [arcs ->].
    eexists. reflexivity.
Qed.


End RenderReturns.


(** ** From the collector to the card *)

Section Pipeline.
Import Py system_info kawaii_renderer main spec.

Variable log10 : Q -> Q.
Hypothesis log10_max_bytes : ~ (log10 (inject_Z (2 ^ 40)) == 0)%Q.

Lemma bytes_to_gb_zero (b : Z) :
  (0 <= b)%Z -> ((bytes_to_gb b == 0)%Q <-> (b <= 5368709)%Z).
Proof.
  intros Hb. destruct bytes_to_gb_facts as (_ & Hmono & _ & Hpos). split.
  - intros E. destruct (Z_le_gt_dec b 5368709) as [|Hgt]; [assumption|].
    exfalso. assert (H : (bytes_to_gb 5368710 <= bytes_to_gb b)%Q)
      by (apply Hmono; lia).
    rewrite E in H. revert H. apply Qlt_not_le. reflexivity.
  - intros Hle. apply Qle_antisym; [|now apply Hpos].
    apply (Qle_trans _ (bytes_to_gb 5368709)); [now apply Hmono | discriminate].
Qed.

Lemma collected_entries (h : host) (st : StatusInfo) :
  get_all_status_info h = Ok st ->
  exists c m sw d n g sy,
    get_cpu_info h = Ok c /\ get_memory_info h = Ok m /\
    get_swap_info h = Ok sw /\ get_disk_info h = Ok d /\
    get_network_info h = Ok n /\ get_gpu_info h = Ok g /\
    get_system_info h = Ok sy /\
    st = {| st_cpu := Some c; st_memory := Some m; st_swap := Some sw;
            st_disk := Some d; st_network := Some n; st_gpu := Some g;
            st_system := Some sy |}.
Proof.
  unfold get_all_status_info. bind_simpl. intros H.
  destruct (get_cpu_info h) as [c|]; [|discriminate H].
  destruct (get_memory_info h) as [m|]; [|discriminate H].
  destruct (get_swap_info h) as [sw|]; [|discriminate H].
  destruct (get_disk_info h) as [d|]; [|discriminate H].
  destruct (get_network_info h) as [n|]; [|discriminate H].
  destruct (get_gpu_info h) as [g|]; [|discriminate H].
  destruct (get_system_info h) as [sy|]; [|discriminate H].
  injection H as <-. exists c, m, sw, d, n, g, sy. repeat split.
Qed.

(** A snapshot that the collector returned (with or without its network
    entry) always has the entries [render] requires, so KeyError is out;
    [render] draws it exactly when the host's memory and its root file
    system are both larger than 5368709 bytes, the largest count that
    rounds to 0.00 GB, and raises ZeroDivisionError otherwise. *)
Theorem collected_snapshot_renders (p : StatusPlugin) (h : host)
    (res : resources) (st : StatusInfo) (vm : svmem) (du : sdiskusage) :
  snapshot_to_render p h = Ok st ->
  psutil_virtual_memory h = Ok vm ->
  psutil_disk_usage h = Ok du ->
  (0 <= vm_total vm)%Z -> (0 <= du_total du)%Z ->
  required_present st = true /\
  (succeeds (render log10 res st)
   <-> (5368709 < vm_total vm)%Z /\ (5368709 < du_total du)%Z) /\
  (forall e, render log10 res st = Raise e -> e = ZeroDivisionError).
Proof.
  intros Hsnap Hvm Hdu Hv0 Hd0.
  unfold snapshot_to_render in Hsnap. bind_simpl.
  destruct (get_all_status_info h) as [st0|] eqn:Hall; [|discriminate Hsnap].
  injection Hsnap as Hst.
  destruct (collected_entries h st0 Hall)
    as (c & m & sw & d & n & g & sy & _ & Hm & _ & Hd & _ & _ & _ & ->).
  assert (Em : mem_total m = bytes_to_gb (vm_total vm)).
  { unfold get_memory_info in Hm. rewrite Hvm in Hm. now injection Hm as <-. }
  assert (Ed : disk_total d = bytes_to_gb (du_total du)).
  { unfold get_disk_info in Hd. rewrite Hdu in Hd. bind_simpl.
    destruct (truediv _ _); [|discriminate Hd]. now injection Hd as <-. }
  assert (Hreq : required_present st = true).
  { subst st. now destruct (negb (show_network p)). }
  assert (Hkeys : st_cpu st = Some c /\ st_memory st = Some m /\
                  st_disk st = Some d /\ st_system st = Some sy).
  { subst st. now destruct (negb (show_network p)). }
  destruct Hkeys as (Kc & Km & Kd & Ks).
  split; [assumption|]. split.
  - rewrite (render_succeeds_iff log10 log10_max_bytes res st). split.
    + intros (c' & m' & d' & sy' & Hc' & Hm' & Hd' & _ & Hmt & Hdt).
      rewrite Km in Hm'. injection Hm' as <-.
      rewrite Kd in Hd'. injection Hd' as <-.
      rewrite Em in Hmt. rewrite Ed in Hdt.
      rewrite bytes_to_gb_zero in Hmt, Hdt by assumption. lia.
    + intros [Hmt Hdt]. exists c, m, d, sy.
      repeat split; try assumption.
      * rewrite Em, bytes_to_gb_zero by assumption. lia.
      * rewrite Ed, bytes_to_gb_zero by assumption. lia.
  - intros e He.
    destruct (proj2 (render_exceptions log10 res st) e He) as [-> | ->];
      [|reflexivity].
    apply (proj1 (render_exceptions log10 res st)) in He. congruence.
Qed.

End Pipeline.

Lemma collected_snapshot_renders_witness :
  spec.succeeds (kawaii_renderer.render spec.coarse_log10 spec.sample_resources
                   spec.collected_sample).
Proof.
  apply (proj2 (proj1 (proj2 (collected_snapshot_renders spec.coarse_log10
           ltac:(discriminate) spec.sample_plugin
           (spec.sample_host (Py.Raise Py.PermissionError) (Py.Ok spec.sample_disk))
           spec.sample_resources spec.collected_sample
           {| system_info.vm_total := 17179869184;
              system_info.vm_used := 4294967296;
              system_info.vm_available := 12884901888;
              system_info.vm_percent := 25 |}
           spec.sample_disk eq_refl eq_refl eq_refl
           ltac:(discriminate) ltac:(discriminate))))).
  split; reflexivity.
Defined.

(** ** The order of the draw calls *)

Section Layers.
Import Py system_info kawaii_renderer main spec.

Variable log10 : Q -> Q.

Lemma forallb_filter {A : Type} (f : A -> bool) (l : list A) :
  forallb f (List.filter f l) = true.
Proof.
  induction l as [|a l IH]; simpl; [reflexivity|].
  destruct (f a) eqn:E; simpl; [now rewrite E|assumption].
Qed.

Lemma arcs_then_hollows_then_labels (c : CPUInfo) (m : MemoryInfo)
    (sw : option SwapInfo) (d : DiskInfo) (g : option GPUInfo)
    (n : option NetworkInfo) (arcs : list draw_call) :
  _draw_progress_arcs log10 c m sw d g n = Ok arcs ->
  arcs = (List.filter is_arc arcs ++ hollows ++ List.filter is_text arcs)%list /\
  List.filter is_arc arcs <> [].
Proof.
  intros H. unfold _draw_progress_arcs, when_some in H. bind_simpl.
  destruct (swap_shown sw) as [s|], n as [n|], g as [g|];
    repeat next_result H; injection H as <-; repeat open_block;
    (split; [reflexivity | discriminate]).
Qed.

Lemma render_rows_texts (c : CPUInfo) (m : MemoryInfo) (sw : option SwapInfo)
    (d : DiskInfo) (g : option GPUInfo) (n : option NetworkInfo) :
  forallb is_text (render_rows c m sw d g n) = true.
Proof.
  unfold render_rows. now destruct (swap_shown sw), n, g.
Qed.

(** On every card the draw calls come in four layers: the captions and
    text rows, then all the ring arcs (at least the CPU ring), then the
    seven transparent ellipses that hollow the rings, then the percent
    labels and the system details; so no label is drawn before an
    ellipse and no arc after one. *)
Theorem render_draws_in_layers (res : resources) (st : StatusInfo) (cv : canvas) :
  render log10 res st = Ok cv ->
  exists rows rings labels,
    calls cv = (rows ++ rings ++ hollows ++ labels)%list /\
    forallb is_text rows = true /\
    forallb is_arc rings = true /\ rings <> [] /\
    forallb is_text labels = true.
Proof.
  intros H.
  destruct (render_calls log10 res st cv H)
    as (c & m & d & sy & arcs & _ & _ & _ & _ & Ha & ->).
  destruct (arcs_then_hollows_then_labels _ _ _ _ _ _ _ Ha) as [E Hne].
  exists (render_rows c m (st_swap st) d (st_gpu st) (st_network st)),
         (List.filter is_arc arcs),
         (List.filter is_text arcs ++ _draw_system_details res sy c)%list.
  split.
  - rewrite E at 1. now rewrite <- !app_assoc.
  - split; [apply render_rows_texts|].
    split; [apply forallb_filter|]. split; [assumption|].
    rewrite forallb_app, forallb_filter. reflexivity.
Qed.

End Layers.

Lemma render_draws_in_layers_witness :
  exists rows rings labels,
    kawaii_renderer.calls
      (match kawaii_renderer.render spec.coarse_log10 spec.sample_resources
               spec.sample_snapshot with
       | Py.Ok cv => cv
       | Py.Raise _ => {| kawaii_renderer.base := kawaii_renderer.Background;
                          kawaii_renderer.calls := [] |}
       end)
    = (rows ++ rings ++ spec.hollows ++ labels)%list /\
    forallb spec.is_text rows = true /\
    forallb spec.is_arc rings = true /\ rings <> [] /\
    forallb spec.is_text labels = true.
Proof.
  apply (render_draws_in_layers spec.coarse_log10 spec.sample_resources
           spec.sample_snapshot).
  vm_compute. reflexivity.
Defined.

(** ** Truncated labels *)

Section Truncation.
Import Py system_info kawaii_renderer main spec.













End Truncation.

(** ** The range of the network ring *)

Section RingRange.
Import Py system_info kawaii_renderer main spec.

Variable log10 : Q -> Q.
Hypothesis log10_1 : (log10 1 == 0)%Q.
Hypothesis log10_mono :
  forall x y : Z, (1 <= x <= y)%Z -> (log10 (inject_Z x) <= log10 (inject_Z y))%Q.
Hypothesis log10_max_pos : (0 < log10 (inject_Z (2 ^ 40)))%Q.



End RingRange.



(** ** Fonts are all custom or all default *)

Section Fonts.
Import Py kawaii_renderer spec.

Lemma result_unit_cases (r : result unit) :
  r = Ok tt \/ exists e, r = Raise e.
Proof. destruct r as [[]|e]; [now left | right; now exists e]. Qed.

(** [setup_fonts] never mixes custom and default fonts: it returns the
    five custom fonts exactly when all five files load; when a load fails
    it returns the default font in all five places, also for the fonts
    that had loaded, or raises an error that is not an [OSError]. *)
Theorem setup_fonts_all_or_nothing (l : font_loads) :
  (all_loaded l -> setup_fonts l = Ok custom_fonts) /\
  (forall fs, setup_fonts l = Ok fs ->
     (fs = custom_fonts /\ all_loaded l) \/
     (fs = default_fonts /\ ~ all_loaded l)) /\
  (forall e, setup_fonts l = Raise e -> is_OSError e = false /\ ~ all_loaded l) /\
  setup_fonts dingtalk_missing = Ok default_fonts.
Proof.
  split; [|split; [|split; [|reflexivity]]].
  - intros (H1 & H2 & H3 & H4 & H5). unfold setup_fonts.
    rewrite H1, H2, H3, H4, H5. reflexivity.
  - intros fs. unfold setup_fonts, all_loaded.
    destruct (result_unit_cases (load_adlam_36 l)) as [-> | [e1 ->]];
    [destruct (result_unit_cases (load_spicy_38 l)) as [-> | [e2 ->]];
     [destruct (result_unit_cases (load_baotu_64 l)) as [-> | [e3 ->]];
      [destruct (result_unit_cases (load_dingtalk_38 l)) as [-> | [e4 ->]];
       [destruct (result_unit_cases (load_baotu_28 l)) as [-> | [e5 ->]]|]|]|]|];
    bind_simpl;
    try (intros [= <-]; left; now repeat split);
    match goal with
    | |- context [is_OSError ?e] => destruct (is_OSError e)
    end;
    intros [= <-]; right; (split; [reflexivity|]);
    intros (H1 & H2 & H3 & H4 & H5); discriminate.
  - intros e. unfold setup_fonts, all_loaded.
    destruct (result_unit_cases (load_adlam_36 l)) as [-> | [e1 ->]];
    [destruct (result_unit_cases (load_spicy_38 l)) as [-> | [e2 ->]];
     [destruct (result_unit_cases (load_baotu_64 l)) as [-> | [e3 ->]];
      [destruct (result_unit_cases (load_dingtalk_38 l)) as [-> | [e4 ->]];
       [destruct (result_unit_cases (load_baotu_28 l)) as [-> | [e5 ->]]|]|]|]|];
    bind_simpl;
    try discriminate;
    match goal with
    | |- context [is_OSError ?e] => destruct (is_OSError e) eqn:E
    end;
    intros [= <-]; (split; [assumption|]);
    intros (H1 & H2 & H3 & H4 & H5); discriminate.
Qed.

Lemma setup_fonts_all_or_nothing_witness :
  setup_fonts
    {| load_adlam_36 := Ok tt; load_spicy_38 := Ok tt; load_baotu_64 := Ok tt;
       load_dingtalk_38 := Ok tt; load_baotu_28 := Ok tt |} = Ok custom_fonts.
Proof.
  apply (proj1 (setup_fonts_all_or_nothing _)).
  repeat split.
Defined.

End Fonts.

(** ** Installing missing dependencies *)

Section Dependencies.
Import Py main spec.

Lemma install_each_commands (env : install_env) (packages : list string) :
  exists n, snd (install_each env packages) = map install_of (firstn n packages).
Proof.
  induction packages as [|p rest IH].
  - now exists 0%nat.
  - simpl. destruct (pip_install env [p]) eqn:E.
    + destruct IH as [n IH]. exists (S n). simpl. now rewrite IH.
    + now exists 1%nat.
    + now exists 1%nat.
Qed.

Lemma install_each_true (env : install_env) (packages : list string) :
  fst (install_each env packages) = Ok true <->
  (forall c, In c (snd (install_each env packages)) -> pip_install env c = pip_done).
Proof.
  induction packages as [|p rest IH].
  - simpl. split; [intros _ c []|reflexivity].
  - simpl. destruct (pip_install env [p]) eqn:E; simpl.
    + rewrite IH. split.
      * intros H c [<- | Hc]; [assumption | now apply H].
      * intros H c Hc. apply H. now right.
    + split; [discriminate|]. intros H.
      specialize (H [p] (or_introl eq_refl)). congruence.
    + split; [discriminate|]. intros H.
      specialize (H [p] (or_introl eq_refl)). congruence.
Qed.

Lemma install_each_complete (env : install_env) (packages : list string) :
  fst (install_each env packages) = Ok true ->
  snd (install_each env packages) = map install_of packages.
Proof.
  induction packages as [|p rest IH]; [reflexivity|].
  simpl. destruct (pip_install env [p]); simpl; try discriminate.
  intros H. now rewrite IH.
Qed.

Lemma install_each_stops (env : install_env) (packages : list string)
    (before after : list (list string)) (c : list string) :
  snd (install_each env packages) = (before ++ c :: after)%list ->
  after <> [] -> pip_install env c = pip_done.
Proof.
  revert before. induction packages as [|p rest IH]; intros before.
  - simpl. destruct before; discriminate.
  - simpl. destruct (pip_install env [p]) eqn:E; simpl.
    + destruct before as [|b before]; simpl.
      * intros [= <- _] _. exact E.
      * intros [= _ H]. now apply (IH before).
    + destruct before as [|b [|b' before]]; simpl; intros [= ]; subst; congruence.
    + destruct before as [|b [|b' before]]; simpl; intros [= ]; subst; congruence.
Qed.

Lemma missing_packages_required (env : install_env) (p : string) :
  In p (missing_packages env) ->
  exists m, In (m, p) required_packages /\ find_spec env m = false.
Proof.
  unfold missing_packages. rewrite in_map_iff.
  intros [[m q] [<- H]]. apply filter_In in H. destruct H as [Hin Hf].
  exists m. split; [assumption|]. simpl in Hf. now destruct (find_spec env m).
Qed.

(** [_check_and_install_dependencies] runs no command when the four
    required modules are found; with a requirements file it runs the one
    command that installs from it; without one it installs the missing
    packages one by one in declaration order, never a package whose
    module is found, and stops at the first command that fails.  It
    returns True exactly when every command it ran succeeded, and then,
    without a requirements file, every missing package was installed. *)
Theorem dependencies_install_only_missing (env : install_env) :
  let result := fst (_check_and_install_dependencies env) in
  let commands := snd (_check_and_install_dependencies env) in
  (missing_packages env = [] -> result = Ok true /\ commands = []) /\
  (missing_packages env <> [] -> requirements_exists env = true ->
     commands = [install_requirements]) /\
  (requirements_exists env = false ->
     (exists n, commands = map install_of (firstn n (missing_packages env))) /\
     (forall c, In c commands ->
        exists m p, c = install_of p /\ In (m, p) required_packages /\
                    find_spec env m = false) /\
     (result = Ok true -> commands = map install_of (missing_packages env))) /\
  (result = Ok true <->
     forall c, In c commands -> pip_install env c = pip_done) /\
  (forall before c after, commands = (before ++ c :: after)%list ->
     after <> [] -> pip_install env c = pip_done).
Proof.
  cbv zeta. unfold _check_and_install_dependencies.
  destruct (missing_packages env) as [|p0 rest] eqn:Hm.
  - simpl. repeat split; try congruence.
    + now exists 0%nat.
    + intros c [].
    + intros _ c [].
    + intros before c after H. destruct before; discriminate.
  - destruct (requirements_exists env) eqn:Hr.
    + split; [discriminate|]. split.
      { intros _ _. destruct (pip_install env _); reflexivity. }
      split; [discriminate|]. split.
      * destruct (pip_install env ["-r"; "requirements.txt"]) eqn:E; simpl;
          (split; [|intros H; specialize (H _ (or_introl eq_refl)); congruence]);
          try discriminate.
        intros _ c [<- | []]. exact E.
      * intros before c after H Hafter.
        destruct (pip_install env ["-r"; "requirements.txt"]);
          destruct before as [|b [|b' before]]; simpl in H;
          injection H as; subst; congruence.
    + split; [discriminate|]. split; [discriminate|]. split; [|split].
      * intros _. split; [apply install_each_commands|]. split.
        -- intros c Hc.
           destruct (install_each_commands env (p0 :: rest)) as [n Hn].
           rewrite Hn in Hc. apply in_map_iff in Hc.
           destruct Hc as (p & <- & Hp).
           assert (Hin : In p (missing_packages env)).
           { rewrite Hm. revert Hp. generalize (p0 :: rest). clear.
             induction n as [|n IH]; intros [|q l]; simpl; try tauto.
             intros [-> | H]; [now left | right; now apply IH]. }
           destruct (missing_packages_required env p Hin) as (m & H1 & H2).
           now exists m, p.
        -- apply install_each_complete.
      * apply install_each_true.
      * intros before c after. apply install_each_stops.
Qed.

Lemma dependencies_install_only_missing_witness :
  fst (_check_and_install_dependencies matplotlib_missing) = Ok true /\
  snd (_check_and_install_dependencies matplotlib_missing)
  = map install_of (missing_packages matplotlib_missing).
Proof.
  split; [reflexivity|].
  apply (proj2 (proj2 (proj1 (proj2 (proj2
           (dependencies_install_only_missing matplotlib_missing))) eq_refl))).
  reflexivity.
Defined.

End Dependencies.

(** ** The text behind the cache key *)

Section KeyContent.
Import Py main spec.






End KeyContent.

(** ** Uptime before the boot time *)

Section NegativeUptime.
Import Py system_info spec.



End NegativeUptime.
